(** * pymaltego.messages: the Maltego transform message codec

    A shallow embedding of [src/pymaltego/messages.py]: the envelope
    ([MaltegoMessage]), the request decoder ([TransformRequest]) and the
    response encoder/decoder ([TransformResponse]), over a model of lxml
    element trees, together with the properties the specification states
    about them. *)

From Stdlib Require Import ZArith Ascii String.
From stdpp Require Import base option list gmap strings.

Local Open Scope Z_scope.
Set Warnings "-register-all".

(** ** Python values reaching the codec *)

(** An lxml element: [tag], [attrib] (a string-to-string mapping), [text]
    ([None] when the element has no text) and its ordered children, as
    returned by [getchildren()].  Comment and processing-instruction nodes
    are outside the model: every child is an element with a string tag. *)
Inductive node : Type := Element {
  tag : string;
  attrib : gmap string string;
  text : option string;
  getchildren : list node
}.

(** The objects a caller may hand to [from_node]: only [PyElement] passes
    [etree.iselement]. *)
Inductive pyobj : Type :=
| PyNone
| PyInt (z : Z)
| PyStr (s : string)
| PyElement (n : node).

Definition iselement (o : pyobj) : bool :=
  match o with PyElement _ => true | _ => false end.

(** ** Exceptions and the result monad *)

(** The exception classes the decoders can raise themselves, plus
    [OtherError] for whatever else a collaborator raises. *)
Inductive exn : Type :=
| ValueError (msg : string)
| TypeError (msg : string)
| IndexError (msg : string)
| AttributeError (msg : string)
| MalformedMessageError (msg : string)
| OtherError (cls msg : string).

Inductive result (A : Type) : Type :=
| Return (a : A)
| Raise (e : exn).
Arguments Return {A} a.
Arguments Raise {A} e.

Definition result_bind {A B} (f : A → result B) (m : result A) : result B :=
  match m with
  | Return a => f a
  | Raise e => Raise e
  end.

#[global] Instance result_ret : MRet result := @Return.
#[global] Instance result_mbind : MBind result := @result_bind.

Definition returns {A} (m : result A) : Prop := ∃ a, m = Return a.

(** A [for] loop whose body may raise: the state is threaded through
    the iterations and the first exception aborts the loop. *)
Fixpoint for_each {S X} (body : S → X → result S) (xs : list X) (s : S)
  : result S :=
  match xs with
  | [] => Return s
  | x :: xs' => s' ← body s x; for_each body xs' s'
  end.

(** ** Strings *)

Definition dquote : string := String (ascii_of_nat 34) EmptyString.

(** [str.isspace] of a Python 3 string, on the code points below 256. *)
Definition isspace (c : ascii) : bool :=
  let n := nat_of_ascii c in
  ((9 <=? n)%nat && (n <=? 13)%nat) || ((28 <=? n)%nat && (n <=? 32)%nat)
  || (n =? 133)%nat || (n =? 160)%nat.

Fixpoint lstrip (l : list ascii) : list ascii :=
  match l with
  | c :: l' => if isspace c then lstrip l' else l
  | [] => []
  end.

(** [s.strip()] *)
Definition strip (s : string) : string :=
  string_of_list_ascii
    (rev (lstrip (rev (lstrip (list_ascii_of_string s))))).

(** [bool(s)] for a string. *)
Definition str_truthy (s : string) : bool :=
  match s with EmptyString => false | _ => true end.

(** [text and text.strip()] where [text] is [None] or a string: the
    left operand is the result whenever it is falsy. *)
Definition text_and_strip (text : option string) : option string :=
  match text with
  | None => None
  | Some s => if str_truthy s then Some (strip s) else Some s
  end.

Definition digit_value (c : ascii) : option Z :=
  let n := nat_of_ascii c in
  if ((48 <=? n)%nat && (n <=? 57)%nat) then Some (Z.of_nat n - 48) else None.

(** The digits of a decimal literal; a single underscore is accepted
    between two digits. *)
Fixpoint parse_digits (acc : Z) (after_digit : bool) (l : list ascii)
  : option Z :=
  match l with
  | [] => if after_digit then Some acc else None
  | c :: l' =>
    match digit_value c with
    | Some d => parse_digits (acc * 10 + d) true l'
    | None =>
      if (nat_of_ascii c =? 95)%nat && after_digit
      then parse_digits acc false l'
      else None
    end
  end.

Definition parse_int (s : string) : option Z :=
  match list_ascii_of_string (strip s) with
  | c :: l =>
    if (nat_of_ascii c =? 45)%nat then Z.opp <$> parse_digits 0 false l
    else if (nat_of_ascii c =? 43)%nat then parse_digits 0 false l
    else parse_digits 0 false (c :: l)
  | [] => None
  end.

(** [int(o)] in base 10.  The message of the [ValueError] quotes the
    literal as [repr] does for a string without quotes or escapes.
    CPython 3.11 and later also raises [ValueError] on a literal of more
    than 4300 digits; the model covers the literals below that limit. *)
Definition int (o : pyobj) : result Z :=
  match o with
  | PyInt z => Return z
  | PyStr s =>
    match parse_int s with
    | Some z => Return z
    | None =>
      Raise (ValueError ("invalid literal for int() with base 10: '" +:+ s +:+ "'"))
    end
  | _ =>
    Raise (TypeError "int() argument must be a string, a bytes-like object or a real number")
  end.

(** ** Element trees *)

(** [attrib.get(key, default)]: the attribute as a string, or the default
    object unchanged. *)
Definition attrib_get (n : node) (key : string) (default : pyobj) : pyobj :=
  match attrib n !! key with
  | Some s => PyStr s
  | None => default
  end.

Fixpoint find_first (path : string) (cs : list node) : option node :=
  match cs with
  | [] => None
  | c :: cs' => if decide (tag c = path) then Some c else find_first path cs'
  end.

(** [node.find(path)] for a path that is a plain tag name: the first
    child carrying that tag, or [None]. *)
Definition find (path : string) (n : node) : option node :=
  find_first path (getchildren n).

(** [type(o).__name__], as attribute errors print it. *)
Definition type_name (o : pyobj) : string :=
  match o with
  | PyNone => "NoneType"
  | PyInt _ => "int"
  | PyStr _ => "str"
  | PyElement _ => "lxml.etree._Element"
  end.

(** [o.getchildren()]: only elements have the method. *)
Definition py_getchildren (o : pyobj) : result (list node) :=
  match o with
  | PyElement n => Return (getchildren n)
  | _ =>
    Raise (AttributeError
             ("'" +:+ type_name o +:+ "' object has no attribute 'getchildren'"))
  end.

(** [l[i]] for an index that is not negative. *)
Definition getitem (l : list node) (i : nat) : result node :=
  match l !! i with
  | Some x => Return x
  | None => Raise (IndexError "list index out of range")
  end.

(** The result of [find] as a Python object: an element or [None]. *)
Definition found (o : option node) : pyobj :=
  match o with
  | Some n => PyElement n
  | None => PyNone
  end.

(** [parent.append(child)]: [child] becomes the last child of [parent]. *)
Definition append (parent child : node) : node :=
  Element (tag parent) (attrib parent) (text parent)
          (getchildren parent ++ [child]).

(** An update of the last child of [parent] through a reference to it:
    the element is shared, so the change shows in [parent]. *)
Definition update_last (f : node → node) (parent : node) : node :=
  Element (tag parent) (attrib parent) (text parent)
          (match reverse (getchildren parent) with
           | c :: cs => reverse (f c :: cs)
           | [] => []
           end).

(** Modelled from the spec: [pymaltego.entities.Node] is not among the
    sources.  [Node(tag)] creates an element with that tag and nothing
    else; [Node(tag, parent=p)] moreover appends it as the last child of
    [p] ([SubNode] returns the parent, whose last child is the new
    element). *)
Definition Node (name : string) : node := Element name ∅ None [].

Definition SubNode (name : string) (parent : node) : node :=
  append parent (Node name).

(** Modelled from the spec: [pymaltego.constants] is not among the
    sources; the spec gives DEFAULT_SOFT_LIMIT = 500 and
    DEFAULT_HARD_LIMIT = 10000. *)
Definition DEFAULT_SOFT_LIMIT : Z := 500.
Definition DEFAULT_HARD_LIMIT : Z := 10000.

(** ** Collaborators *)

(** The [from_node]/[to_node] contract of [XMLObject], which [Entity] and
    [UIMessage] implement in [pymaltego.entities] (not among the sources).
    Either method is a parameter of the codec; [from_node] may raise, and
    [to_node] builds a fresh element on every call. *)
Module XMLObject.
Class t (A : Type) := {
  from_node : node → result A;
  to_node : A → node
}.
End XMLObject.

(** ** Messages *)

(** The attributes every message object carries. *)
Record message (Entity UIMessage : Type) : Type := Message {
  entities : list Entity;
  fields : gmap string (option string);
  soft_limit : Z;
  hard_limit : Z;
  ui_messages : list UIMessage
}.
Arguments Message {Entity UIMessage}.
Arguments entities {Entity UIMessage}.
Arguments fields {Entity UIMessage}.
Arguments soft_limit {Entity UIMessage}.
Arguments hard_limit {Entity UIMessage}.
Arguments ui_messages {Entity UIMessage}.

Section Messages.
Context {Entity UIMessage : Type}.
Context `{!XMLObject.t Entity, !XMLObject.t UIMessage}.

Local Abbreviation message := (message Entity UIMessage).

Definition append_entity (self : message) (e : Entity) : message :=
  Message (entities self ++ [e]) (fields self) (soft_limit self)
          (hard_limit self) (ui_messages self).

Definition set_field (self : message) (name : string)
           (value : option string) : message :=
  Message (entities self) (<[name := value]> (fields self))
          (soft_limit self) (hard_limit self) (ui_messages self).

Definition set_soft_limit (self : message) (z : Z) : message :=
  Message (entities self) (fields self) z (hard_limit self)
          (ui_messages self).

Definition set_hard_limit (self : message) (z : Z) : message :=
  Message (entities self) (fields self) (soft_limit self) z
          (ui_messages self).

Definition set_entities (self : message) (es : list Entity) : message :=
  Message es (fields self) (soft_limit self) (hard_limit self)
          (ui_messages self).

Definition set_ui_messages (self : message) (ms : list UIMessage)
  : message :=
  Message (entities self) (fields self) (soft_limit self)
          (hard_limit self) ms.

(** The class a method is invoked on, for [cls.__name__]. *)
Inductive cls : Type :=
| MaltegoMessageCls
| TransformRequestCls
| TransformResponseCls.

Definition __name__ (c : cls) : string :=
  match c with
  | MaltegoMessageCls => "MaltegoMessage"
  | TransformRequestCls => "TransformRequest"
  | TransformResponseCls => "TransformResponse"
  end.

(** ['Maltego{}Message'.format(cls.__name__)] *)
Definition message_tag (c : cls) : string :=
  "Maltego" +:+ __name__ c +:+ "Message".

(** *** class MaltegoMessage *)

(** [MaltegoMessage.__init__] *)
Definition MaltegoMessage_init : message :=
  Message [] ∅ DEFAULT_SOFT_LIMIT DEFAULT_HARD_LIMIT [].

(** [MaltegoMessage.from_node], a class method: [c] is the class it is
    called on. *)
Definition MaltegoMessage_from_node (c : cls) (o : pyobj) : result node :=
  if negb (iselement o)
  then Raise (ValueError "Is not an `etree.Element` instance.")
  else
    children ← py_getchildren o;
    node ← getitem children 0;
    if decide (tag node ≠ message_tag c)
    then Raise (MalformedMessageError
                  (tag node +:+ " is invalid MaltegoMessage Type."))
    else Return node.

(** [MaltegoMessage.to_node]; [c] is [self.__class__].  The [UIMessages]
    element is attached to [node] when it is created and filled
    afterwards through the reference [ui_messages]. *)
Definition MaltegoMessage_to_node (c : cls) (self : message) : node :=
  let node := Node (message_tag c) in
  match ui_messages self with
  | [] => node
  | _ :: _ =>
    let node := SubNode "UIMessages" node in
    fold_left
      (λ node message,
         update_last (λ ui_messages,
                        append ui_messages (XMLObject.to_node message))
                     node)
      (ui_messages self) node
  end.

(** *** class TransformRequest *)

Definition entities_tag_required : exn :=
  MalformedMessageError
    ("Request requires " +:+ dquote +:+ "Entities" +:+ dquote +:+ " tag.").

Definition name_attribute_required : exn :=
  MalformedMessageError
    ("No " +:+ dquote +:+ "Name" +:+ dquote +:+ " attribute in Field").

(** The body of the loop over the children of [TransformFields]. *)
Definition field_body (instance : message) (field : node)
  : result message :=
  match attrib field !! "Name" with
  | None => Raise name_attribute_required
  | Some name =>
    let value := text_and_strip (text field) in
    Return (set_field instance name value)
  end.

Definition entity_body (instance : message) (entity : node)
  : result message :=
  e ← XMLObject.from_node entity;
  Return (append_entity instance e).

(** [TransformRequest.from_node] *)
Definition TransformRequest_from_node (o : pyobj) : result message :=
  node ← MaltegoMessage_from_node TransformRequestCls o;
  match find "Entities" node with
  | None => Raise entities_tag_required
  | Some entity_nodes =>
    let instance := MaltegoMessage_init in
    instance ← for_each entity_body (getchildren entity_nodes) instance;
    instance ←
      match find "TransformFields" node with
      | Some fields => for_each field_body (getchildren fields) instance
      | None => Return instance
      end;
    match find "Limits" node with
    | Some limit =>
      soft ← int (attrib_get limit "SoftLimit" (PyInt DEFAULT_SOFT_LIMIT));
      let instance := set_soft_limit instance soft in
      hard ← int (attrib_get limit "HardLimit" (PyInt DEFAULT_SOFT_LIMIT));
      let instance := set_hard_limit instance hard in
      Return instance
    | None => Return instance
    end
  end.

(** *** class TransformResponse *)

(** [TransformResponse.__init__(entities, ui_messages=None)]; an omitted
    or empty [ui_messages] becomes a new empty list. *)
Definition TransformResponse_init (entities : list Entity)
           (ui_messages : option (list UIMessage)) : message :=
  let self := MaltegoMessage_init in
  let self := set_entities self entities in
  set_ui_messages self
    (match ui_messages with
     | Some (m :: ms) => m :: ms
     | _ => []
     end).

(** What [None.getchildren()] raises. *)
Definition none_getchildren : exn :=
  AttributeError "'NoneType' object has no attribute 'getchildren'".

(** [TransformResponse.from_node] *)
Definition TransformResponse_from_node (o : pyobj) : result message :=
  node ← MaltegoMessage_from_node TransformResponseCls o;
  match find "Entities" node with
  | None => Raise entities_tag_required
  | Some entity_nodes =>
    entities ←
      for_each (λ entities entity,
                  e ← XMLObject.from_node entity; Return (entities ++ [e]))
               (getchildren entity_nodes) [];
    let message_nodes := found (find "UIMessages" node) in
    messages ← py_getchildren message_nodes;
    ui_messages ←
      for_each (λ ui_messages message,
                  m ← XMLObject.from_node message;
                  Return (ui_messages ++ [m]))
               messages [];
    Return (TransformResponse_init entities (Some ui_messages))
  end.

(** [TransformResponse.to_node] *)
Definition TransformResponse_to_node (self : message) : node :=
  let node := MaltegoMessage_to_node TransformResponseCls self in
  let node := SubNode "Entities" node in
  fold_left
    (λ node entity,
       update_last (λ entities_node,
                      append entities_node (XMLObject.to_node entity))
                   node)
    (entities self) node.

(** [MaltegoMessage.to_xml] up to the tree handed to [etree.tostring]
    (serialisation to bytes is lxml's); [to_node] is the method of the
    object's own class. *)
Definition to_xml_tree (to_node : message → node) (self : message)
  : node :=
  let message := Node "MaltegoMessage" in
  append message (to_node self).

(** The [UIMessages] element of a message, if it is rendered at all. *)
Definition rendered_ui_messages (self : message) : list node :=
  match ui_messages self with
  | [] => []
  | _ :: _ =>
    [Element "UIMessages" ∅ None (XMLObject.to_node <$> ui_messages self)]
  end.

End Messages.

(** ** A small codec and documents for concrete instances *)

(** An entity that is only its value, rendered as the text of an
    [Entity] element; decoding rejects any other tag. *)
Inductive entity : Type := EntityValue (value : string).

Inductive ui_message : Type := UIMessageText (value : string).

Definition text_or_empty (n : node) : string := default EmptyString (text n).

#[global] Instance entity_codec : XMLObject.t entity := {|
  XMLObject.from_node n :=
    if decide (tag n = "Entity") then Return (EntityValue (text_or_empty n))
    else Raise (OtherError "MalformedEntityError" (tag n));
  XMLObject.to_node e :=
    match e with EntityValue v => Element "Entity" ∅ (Some v) [] end
|}.

#[global] Instance ui_message_codec : XMLObject.t ui_message := {|
  XMLObject.from_node n :=
    if decide (tag n = "UIMessage")
    then Return (UIMessageText (text_or_empty n))
    else Raise (OtherError "MalformedEntityError" (tag n));
  XMLObject.to_node m :=
    match m with UIMessageText v => Element "UIMessage" ∅ (Some v) [] end
|}.

(** [<MaltegoMessage>inner</MaltegoMessage>] *)
Definition document (inner : node) : node :=
  Element "MaltegoMessage" ∅ None [inner].

Definition request (children : list node) : node :=
  document (Element "MaltegoTransformRequestMessage" ∅ None children).

Definition response (children : list node) : node :=
  document (Element "MaltegoTransformResponseMessage" ∅ None children).

Definition empty_entities : node := Element "Entities" ∅ None [].

(** [<Limits/>] and [<Limits SoftLimit="10"/>] *)
Definition limits_bare : node := Element "Limits" ∅ None [].
Definition limits_soft_10 : node :=
  Element "Limits" {[ "SoftLimit" := "10" ]} None [].

(** [<Field Name="x"/>], [<Field Name="x"> a b </Field>] and [<Field/>] *)
Definition field_x_no_text : node :=
  Element "Field" {[ "Name" := "x" ]} None [].
Definition field_x_padded : node :=
  Element "Field" {[ "Name" := "x" ]} (Some "  a b  ") [].
Definition field_nameless : node := Element "Field" ∅ (Some "v") [].

Definition transform_fields (fs : list node) : node :=
  Element "TransformFields" ∅ None fs.

(** A request whose only entity the codec above rejects, followed by a
    field without a name. *)
Definition request_bogus_entity : node :=
  request [Element "Entities" ∅ None [Element "Bogus" ∅ None []];
           transform_fields [field_nameless]].

(** [<Field Name="x"> a b </Field><Field Name="x"/>] in a request. *)
Definition request_two_fields : node :=
  request [empty_entities; transform_fields [field_x_padded; field_x_no_text]].


(** [<Entity>a</Entity>], [<Entity>b</Entity>] and [<UIMessage>m</UIMessage>] *)
Definition entity_a : node := Element "Entity" ∅ (Some "a") [].
Definition entity_b : node := Element "Entity" ∅ (Some "b") [].
Definition ui_message_m : node := Element "UIMessage" ∅ (Some "m") [].

Definition entities_a_b : node := Element "Entities" ∅ None [entity_a; entity_b].

(** [<Limits SoftLimit="10" HardLimit="20"/>] and [<Limits SoftLimit="ten"/>] *)
Definition limits_10_20 : node :=
  Element "Limits" (<[ "SoftLimit" := "10" ]> {[ "HardLimit" := "20" ]}) None [].
Definition limits_soft_ten : node :=
  Element "Limits" {[ "SoftLimit" := "ten" ]} None [].

(** [<Field Name="y">z</Field>] *)
Definition field_y : node := Element "Field" {[ "Name" := "y" ]} (Some "z") [].

Definition fields_x_y : node := transform_fields [field_x_padded; field_y].

(** The children of a request with two entities, two fields and both
    limits, and the request itself. *)
Definition request_full_children : list node :=
  [entities_a_b; fields_x_y; limits_10_20].
Definition request_full : node := request request_full_children.

(** The same without [Limits], and with a [SoftLimit] that is no number. *)
Definition request_no_limits : node := request [entities_a_b; fields_x_y].
Definition request_bad_limit : node :=
  request [entities_a_b; fields_x_y; limits_soft_ten].

(** A request whose second entity the codec above rejects. *)
Definition entities_a_bogus : node :=
  Element "Entities" ∅ None [entity_a; Element "Bogus" ∅ None []].
Definition request_second_entity_bogus : node :=
  request [entities_a_bogus; fields_x_y].

(** A response document with one UI message and two entities; it also
    carries fields and limits, which a response has no use for. *)
Definition ui_messages_m : node := Element "UIMessages" ∅ None [ui_message_m].
Definition response_full_children : list node :=
  [ui_messages_m; entities_a_b; fields_x_y; limits_10_20].
Definition response_full : node := response response_full_children.

(** A response whose UI message the codec above rejects. *)
Definition ui_messages_bogus : node :=
  Element "UIMessages" ∅ None [Element "Bogus" ∅ None []].
Definition response_bogus_ui_message : node :=
  response [ui_messages_bogus; entities_a_b].

(** The message elements of the documents above. *)
Definition request_message (children : list node) : node :=
  Element "MaltegoTransformRequestMessage" ∅ None children.
Definition response_message (children : list node) : node :=
  Element "MaltegoTransformResponseMessage" ∅ None children.

(** What the two fields of [fields_x_y] decode to. *)
Definition fields_x_y_decoded : gmap string (option string) :=
  <[ "y" := Some "z" ]> (<[ "x" := Some "a b" ]> ∅).

Definition request_full_decoded : message entity ui_message :=
  Message [EntityValue "a"; EntityValue "b"] fields_x_y_decoded 10 20 [].

Definition request_no_limits_decoded : message entity ui_message :=
  Message [EntityValue "a"; EntityValue "b"] fields_x_y_decoded 500 10000 [].

Definition response_full_decoded : message entity ui_message :=
  Message [EntityValue "a"; EntityValue "b"] ∅ 500 10000 [UIMessageText "m"].

(** ** Properties *)

Lemma bind_Return {A B} (f : A → result B) (a : A) :
  (Return a ≫= f) = f a.
Proof. reflexivity. Qed.

Lemma bind_Raise {A B} (f : A → result B) (e : exn) :
  (Raise e ≫= f) = Raise e.
Proof. reflexivity. Qed.

Lemma bind_inv_Return {A B} (f : A → result B) (m : result A) (b : B) :
  (m ≫= f) = Return b → ∃ a, m = Return a ∧ f a = Return b.
Proof. destruct m as [a|e]; [eauto | discriminate]. Qed.

Lemma returns_Return {A} (a : A) : returns (Return a).
Proof. by exists a. Qed.

Lemma not_returns_Raise {A} (e : exn) : ¬ returns (@Raise A e).
Proof. by intros [a Ha]. Qed.

Lemma not_returns_bind {A B} (f : A → result B) (m : result A) :
  (∀ a, ¬ returns (f a)) → ¬ returns (m ≫= f).
Proof.
  intros Hf. destruct m as [a|e]; [apply Hf | apply not_returns_Raise].
Qed.

#[local] Hint Resolve returns_Return not_returns_Raise : core.

Lemma find_first_None path cs :
  find_first path cs = None ↔ ∀ c, c ∈ cs → tag c ≠ path.
Proof.
  induction cs as [|c cs IH]; simpl.
  - split; [intros _ c Hc; by apply elem_of_nil in Hc | done].
  - case_decide as Htag.
    + split; [done | intros Hall; exfalso; apply (Hall c); [left | done]].
    + rewrite IH. split.
      * intros Hall c' Hc'. apply elem_of_cons in Hc' as [-> | Hc']; auto.
      * intros Hall c' Hc'. apply Hall. by right.
Qed.

Lemma find_first_Some path cs c :
  find_first path cs = Some c → c ∈ cs ∧ tag c = path.
Proof.
  induction cs as [|c' cs IH]; simpl; [done |].
  case_decide as Htag.
  - intros [= ->]. split; [left | done].
  - intros Hc. destruct (IH Hc). split; [by right | done].
Qed.

(** A loop returns when each of its iterations does. *)
Lemma for_each_returns {S X} (body : S → X → result S) xs s :
  (∀ s' x, x ∈ xs → returns (body s' x)) → returns (for_each body xs s).
Proof.
  revert s. induction xs as [|x xs IH]; intros s Hbody; simpl; [done |].
  destruct (Hbody s x) as [s' Hs']; [left |]. rewrite Hs', bind_Return.
  apply IH. intros s'' x' Hx'. apply Hbody. by right.
Qed.

Lemma lstrip_spec (l : list ascii) :
  ∃ ws, l = ws ++ lstrip l
    ∧ Forall (λ c, isspace c = true) ws
    ∧ match lstrip l with c :: _ => isspace c = false | [] => True end.
Proof.
  induction l as [|c l (ws & Hl & Hws & Hhead)]; simpl.
  - by exists [].
  - destruct (isspace c) eqn:Hc.
    + exists (c :: ws). split; [by rewrite Hl at 1 |]. split; [| done].
      by constructor.
    + by exists [].
Qed.

Lemma lstrip_snoc_nonspace (l : list ascii) (c : ascii) :
  isspace c = false → ∃ l', lstrip (l ++ [c]) = l' ++ [c].
Proof.
  intros Hc. induction l as [|x l IH]; simpl.
  - rewrite Hc. by exists [].
  - destruct (isspace x); [done |]. by exists (x :: l).
Qed.

(** [strip] removes a run of whitespace at either end, and nothing
    else: what is left neither starts nor ends with whitespace. *)
Lemma strip_spec (s : string) :
  ∃ pre post,
    list_ascii_of_string s = pre ++ list_ascii_of_string (strip s) ++ post
    ∧ Forall (λ c, isspace c = true) pre
    ∧ Forall (λ c, isspace c = true) post
    ∧ match list_ascii_of_string (strip s) with
      | c :: _ => isspace c = false
      | [] => True
      end
    ∧ match rev (list_ascii_of_string (strip s)) with
      | c :: _ => isspace c = false
      | [] => True
      end.
Proof.
  unfold strip. rewrite list_ascii_of_string_of_list_ascii.
  destruct (lstrip_spec (list_ascii_of_string s)) as (pre & Hs & Hpre & Hhead).
  destruct (lstrip_spec (rev (lstrip (list_ascii_of_string s))))
    as (ws & Hr & Hws & Hlast).
  exists pre, (rev ws). split; [| split; [done | split; [| split]]].
  - rewrite <- rev_app_distr, <- Hr, rev_involutive. exact Hs.
  - apply Forall_forall. intros c Hc. apply list_elem_of_In in Hc.
    apply in_rev in Hc. apply list_elem_of_In in Hc.
    by apply (proj1 (Forall_forall _ _) Hws).
  - destruct (lstrip (list_ascii_of_string s)) as [|c l]; [done |].
    simpl rev. destruct (lstrip_snoc_nonspace (rev l) c Hhead) as [l' ->].
    by rewrite rev_app_distr.
  - by rewrite rev_involutive.
Qed.

Section Envelope.

(** The envelope check on every class: an object that is not an element. *)
Lemma from_node_not_element (c : cls) (o : pyobj) :
  iselement o = false →
  MaltegoMessage_from_node c o
  = Raise (ValueError "Is not an `etree.Element` instance.").
Proof. by destruct o. Qed.

Lemma from_node_no_children (c : cls) (root : node) :
  getchildren root = [] →
  MaltegoMessage_from_node c (PyElement root)
  = Raise (IndexError "list index out of range").
Proof.
  intros Hroot. unfold MaltegoMessage_from_node. simpl. by rewrite Hroot.
Qed.

Lemma from_node_wrong_tag (c : cls) (root node : node) rest :
  getchildren root = node :: rest →
  tag node ≠ message_tag c →
  MaltegoMessage_from_node c (PyElement root)
  = Raise (MalformedMessageError
             (tag node +:+ " is invalid MaltegoMessage Type.")).
Proof.
  intros Hroot Htag. unfold MaltegoMessage_from_node. simpl. rewrite Hroot.
  simpl. by case_decide.
Qed.

Lemma from_node_inner (c : cls) (root node : node) rest :
  getchildren root = node :: rest →
  tag node = message_tag c →
  MaltegoMessage_from_node c (PyElement root) = Return node.
Proof.
  intros Hroot Htag. unfold MaltegoMessage_from_node. simpl. rewrite Hroot.
  simpl. by case_decide.
Qed.

End Envelope.

Section Decoding.
Context {Entity UIMessage : Type}.
Context `{!XMLObject.t Entity, !XMLObject.t UIMessage}.

Local Abbreviation message := (message Entity UIMessage).
Local Abbreviation request_from_node :=
  (TransformRequest_from_node (Entity:=Entity) (UIMessage:=UIMessage)).
Local Abbreviation response_from_node :=
  (TransformResponse_from_node (Entity:=Entity) (UIMessage:=UIMessage)).
Local Abbreviation response_to_node :=
  (TransformResponse_to_node (Entity:=Entity) (UIMessage:=UIMessage)).
Local Abbreviation response_init :=
  (TransformResponse_init (Entity:=Entity) (UIMessage:=UIMessage)).
Local Abbreviation response_to_xml_tree :=
  (to_xml_tree (Entity:=Entity) (UIMessage:=UIMessage) response_to_node).

Lemma for_each_app {S X} (body : S → X → result S) xs ys s :
  for_each body (xs ++ ys) s = for_each body xs s ≫= for_each body ys.
Proof.
  revert s. induction xs as [|x xs IH]; intros s; simpl; [done |].
  destruct (body s x) as [s'|e]; [| done]. rewrite !bind_Return. apply IH.
Qed.

Lemma entity_loop_returns (cs : list node) (instance : message) :
  (∀ c, c ∈ cs → returns (XMLObject.from_node (A:=Entity) c)) →
  returns (for_each entity_body cs instance).
Proof.
  intros Hcs. apply for_each_returns. intros s c Hc.
  destruct (Hcs c Hc) as [e He]. unfold entity_body. rewrite He. by eexists.
Qed.

Lemma field_body_named (instance : message) (field : node) name :
  attrib field !! "Name" = Some name →
  field_body instance field
  = Return (set_field instance name (text_and_strip (text field))).
Proof. intros Hname. unfold field_body. by rewrite Hname. Qed.

Lemma field_body_cases (instance : message) (field : node) :
  (attrib field !! "Name" = None
   ∧ field_body instance field = Raise name_attribute_required)
  ∨ (∃ name, attrib field !! "Name" = Some name
       ∧ field_body instance field
         = Return (set_field instance name (text_and_strip (text field)))).
Proof.
  unfold field_body. destruct (attrib field !! "Name") as [name|]; eauto.
Qed.

(** The loop over the fields stops at the first one without a name. *)
Lemma field_loop_nameless (fs : list node) (instance : message) field :
  field ∈ fs → attrib field !! "Name" = None →
  for_each field_body fs instance = Raise name_attribute_required.
Proof.
  revert instance. induction fs as [|f fs IH]; intros instance Hin Hname.
  - by apply elem_of_nil in Hin.
  - simpl. destruct (field_body_cases instance f) as [[_ ->] | (n & Hn & ->)];
      [done |].
    rewrite bind_Return. apply elem_of_cons in Hin as [Heq | Hin].
    + subst. congruence.
    + by apply IH.
Qed.

(** A key of the mapping survives the rest of the loop, with its value
    when no later field carries the same name. *)
Lemma field_loop_keeps_key (fs : list node) (instance instance' : message)
      name :
  for_each field_body fs instance = Return instance' →
  is_Some (fields instance !! name) → is_Some (fields instance' !! name).
Proof.
  revert instance. induction fs as [|f fs IH]; intros instance; simpl.
  - by intros [= ->].
  - destruct (field_body_cases instance f) as [[_ ->] | (n & _ & ->)];
      [done |].
    rewrite bind_Return. intros Hloop Hkey. apply (IH _ Hloop). simpl.
    rewrite lookup_insert. by case_decide.
Qed.

Lemma field_loop_keeps_value (fs : list node) (instance instance' : message)
      name value :
  for_each field_body fs instance = Return instance' →
  (∀ g, g ∈ fs → attrib g !! "Name" ≠ Some name) →
  fields instance !! name = Some value →
  fields instance' !! name = Some value.
Proof.
  revert instance. induction fs as [|f fs IH]; intros instance; simpl.
  - by intros [= ->].
  - destruct (field_body_cases instance f) as [[_ ->] | (n & Hn & ->)];
      [done |].
    rewrite bind_Return. intros Hloop Hlater Hkey. apply (IH _ Hloop).
    + intros g Hg. apply Hlater. by right.
    + simpl. rewrite lookup_insert_ne; [done |].
      intros ->. apply (Hlater f); [left | done].
Qed.

(** C9: on every message class, [from_node] of an object that is not
    an element raises the [ValueError] of the envelope check (the spec's
    InvalidInputError); the request and response decoders inherit it. *)
Theorem from_node_rejects_non_element (o : pyobj) :
  iselement o = false →
  (∀ c, MaltegoMessage_from_node c o
        = Raise (ValueError "Is not an `etree.Element` instance."))
  ∧ request_from_node o
    = Raise (ValueError "Is not an `etree.Element` instance.")
  ∧ response_from_node o
    = Raise (ValueError "Is not an `etree.Element` instance.").
Proof.
  intros Ho. split; [|split].
  - intros c. by apply from_node_not_element.
  - unfold TransformRequest_from_node.
    by rewrite (from_node_not_element _ _ Ho).
  - unfold TransformResponse_from_node.
    by rewrite (from_node_not_element _ _ Ho).
Qed.

(** C10: an element without children makes [from_node] raise
    [IndexError] on every class, whatever tag was expected, and that
    exception is neither the [ValueError] nor the
    [MalformedMessageError] of the error taxonomy. *)
Theorem from_node_of_childless_element (root : node) :
  getchildren root = [] →
  ∃ e, e = IndexError "list index out of range"
    ∧ (∀ c, MaltegoMessage_from_node c (PyElement root) = Raise e)
    ∧ request_from_node (PyElement root) = Raise e
    ∧ response_from_node (PyElement root) = Raise e
    ∧ (∀ msg, e ≠ ValueError msg ∧ e ≠ MalformedMessageError msg).
Proof.
  intros Hroot. eexists. split; [reflexivity |]. split; [|split; [|split]].
  - intros c. by apply from_node_no_children.
  - unfold TransformRequest_from_node.
    by rewrite (from_node_no_children _ _ Hroot).
  - unfold TransformResponse_from_node.
    by rewrite (from_node_no_children _ _ Hroot).
  - intros msg. split; discriminate.
Qed.

(** C5: a request decode of a document whose first child is not tagged
    [MaltegoTransformRequestMessage] raises [MalformedMessageError]. *)
Theorem request_wrong_inner_tag (root inner : node) (rest : list node) :
  getchildren root = inner :: rest →
  tag inner ≠ "MaltegoTransformRequestMessage" →
  request_from_node (PyElement root)
  = Raise (MalformedMessageError
             (tag inner +:+ " is invalid MaltegoMessage Type.")).
Proof.
  intros Hroot Htag. unfold TransformRequest_from_node.
  by rewrite (from_node_wrong_tag TransformRequestCls _ _ _ Hroot Htag).
Qed.

(** C6: a request decode of a document with the right inner tag and no
    child tagged [Entities] raises [MalformedMessageError], whatever
    else the document holds. *)
Theorem request_without_entities (root inner : node) (rest : list node) :
  getchildren root = inner :: rest →
  tag inner = "MaltegoTransformRequestMessage" →
  (∀ c, c ∈ getchildren inner → tag c ≠ "Entities") →
  request_from_node (PyElement root) = Raise entities_tag_required
  ∧ ∃ msg, entities_tag_required = MalformedMessageError msg.
Proof.
  intros Hroot Htag Hnone. split; [| by eexists].
  unfold TransformRequest_from_node.
  rewrite (from_node_inner TransformRequestCls _ _ _ Hroot Htag), bind_Return.
  unfold find. by rewrite (proj2 (find_first_None _ _) Hnone).
Qed.

(** What a request decode that returns has gone through. *)
Lemma request_from_node_Return (root inner : node) rest (r : message) :
  getchildren root = inner :: rest →
  request_from_node (PyElement root) = Return r →
  tag inner = message_tag TransformRequestCls
  ∧ ∃ entity_nodes i1 i2,
      find "Entities" inner = Some entity_nodes
      ∧ for_each entity_body (getchildren entity_nodes) MaltegoMessage_init
        = Return i1
      ∧ match find "TransformFields" inner with
        | Some fields => for_each field_body (getchildren fields) i1
        | None => Return i1
        end = Return i2
      ∧ match find "Limits" inner with
        | Some limit =>
          ∃ soft hard,
            int (attrib_get limit "SoftLimit" (PyInt DEFAULT_SOFT_LIMIT))
            = Return soft
            ∧ int (attrib_get limit "HardLimit" (PyInt DEFAULT_SOFT_LIMIT))
              = Return hard
            ∧ r = set_hard_limit (set_soft_limit i2 soft) hard
        | None => r = i2
        end.
Proof.
  intros Hroot. unfold TransformRequest_from_node.
  destruct (decide (tag inner = message_tag TransformRequestCls)) as [Htag|Htag].
  2: { by rewrite (from_node_wrong_tag _ _ _ _ Hroot Htag). }
  rewrite (from_node_inner _ _ _ _ Hroot Htag), bind_Return.
  destruct (find "Entities" inner) as [entity_nodes|]; [| done].
  intros Hr. split; [done |]. exists entity_nodes.
  apply bind_inv_Return in Hr as (i1 & Hi1 & Hr).
  apply bind_inv_Return in Hr as (i2 & Hi2 & Hr).
  exists i1, i2. do 3 (split; [done |]).
  destruct (find "Limits" inner) as [limit|]; [| by injection Hr].
  apply bind_inv_Return in Hr as (soft & Hsoft & Hr).
  apply bind_inv_Return in Hr as (hard & Hhard & Hr).
  exists soft, hard. by injection Hr.
Qed.

(** The defaulting of a missing [HardLimit] in general: whenever a
    request with a [Limits] element lacking that attribute decodes, its
    hard limit is the soft-limit constant. *)
Lemma hard_limit_defaults_to_soft_constant (root inner limit : node) rest
      (r : message) :
  getchildren root = inner :: rest →
  find "Limits" inner = Some limit →
  attrib limit !! "HardLimit" = None →
  request_from_node (PyElement root) = Return r →
  hard_limit r = DEFAULT_SOFT_LIMIT.
Proof.
  intros Hroot Hlimit Hhard Hr.
  destruct (request_from_node_Return _ _ _ _ Hroot Hr)
    as (_ & en & i1 & i2 & _ & _ & _ & Hlim).
  rewrite Hlimit in Hlim. destruct Hlim as (soft & hard & _ & Hh & ->).
  unfold attrib_get in Hh. rewrite Hhard in Hh. simpl in Hh.
  by injection Hh as <-.
Qed.

(** C1: the request decoder at the two documents of the claim.  With
    [<Limits/>] the limits come out as 500 and 500, with
    [<Limits SoftLimit="10"/>] as 10 and 500: the missing [HardLimit] is
    filled with DEFAULT_SOFT_LIMIT, not with DEFAULT_HARD_LIMIT = 10000. *)
Theorem limits_missing_hard_limit_gives_500 :
  request_from_node (PyElement (request [empty_entities; limits_bare]))
  = Return (Message [] ∅ 500 500 [])
  ∧ request_from_node (PyElement (request [empty_entities; limits_soft_10]))
    = Return (Message [] ∅ 10 500 [])
  ∧ DEFAULT_HARD_LIMIT = 10000.
Proof. repeat split; vm_compute; reflexivity. Qed.

(** C7, amended: when every child of [Entities] is decoded by the
    entity collaborator without an exception, a child of
    [TransformFields] without a [Name] attribute makes the request
    decode raise [MalformedMessageError]. *)
Theorem request_field_without_name (root inner fields_node field : node)
        (rest : list node) :
  getchildren root = inner :: rest →
  find "TransformFields" inner = Some fields_node →
  field ∈ getchildren fields_node →
  attrib field !! "Name" = None →
  (∀ entity_nodes c,
     find "Entities" inner = Some entity_nodes →
     c ∈ getchildren entity_nodes →
     returns (XMLObject.from_node (A:=Entity) c)) →
  ∃ msg, request_from_node (PyElement root)
         = Raise (MalformedMessageError msg).
Proof.
  intros Hroot Hfields Hin Hname Hentities. unfold TransformRequest_from_node.
  destruct (decide (tag inner = message_tag TransformRequestCls)) as [Htag|Htag].
  2: { rewrite (from_node_wrong_tag _ _ _ _ Hroot Htag). by eexists. }
  rewrite (from_node_inner _ _ _ _ Hroot Htag), bind_Return.
  destruct (find "Entities" inner) as [entity_nodes|] eqn:Hfind;
    [| by eexists].
  destruct (entity_loop_returns (getchildren entity_nodes) MaltegoMessage_init)
    as [i1 ->]; [by eauto |].
  rewrite bind_Return, Hfields.
  rewrite (field_loop_nameless _ _ _ Hin Hname). by eexists.
Qed.

(** C8: a [Field] with a [Name] attribute stores one value under that
    name, whatever the mapping held: [None] when the field has no text,
    and otherwise its text without the whitespace at either end (what is
    left neither starts nor ends with whitespace, and an empty text
    leaves the empty string).  In the request that the decode returns
    the name is a key of [fields], and it maps to that value unless a
    later [Field] carries the same name. *)
Theorem request_field_with_name (root inner fields_node field : node)
        (rest before after : list node) (name : string) (r : message) :
  getchildren root = inner :: rest →
  find "TransformFields" inner = Some fields_node →
  getchildren fields_node = before ++ field :: after →
  attrib field !! "Name" = Some name →
  request_from_node (PyElement root) = Return r →
  ∃ value : option string,
    match text field, value with
    | None, None => True
    | Some s, Some v =>
      (∃ pre post,
         list_ascii_of_string s = pre ++ list_ascii_of_string v ++ post
         ∧ Forall (λ c, isspace c = true) pre
         ∧ Forall (λ c, isspace c = true) post)
      ∧ match list_ascii_of_string v with
        | c :: _ => isspace c = false
        | [] => True
        end
      ∧ match rev (list_ascii_of_string v) with
        | c :: _ => isspace c = false
        | [] => True
        end
      ∧ (s = EmptyString → v = EmptyString)
    | _, _ => False
    end
    ∧ (∀ instance : message,
         ∃ instance', field_body instance field = Return instance'
           ∧ fields instance' !! name = Some value)
    ∧ is_Some (fields r !! name)
    ∧ ((∀ g, g ∈ after → attrib g !! "Name" ≠ Some name) →
       fields r !! name = Some value).
Proof.
  intros Hroot Hfields Hsplit Hname Hr.
  exists (text_and_strip (text field)).
  assert (Hstep : ∀ instance : message,
             ∃ instance', field_body instance field = Return instance'
               ∧ fields instance' !! name
                 = Some (text_and_strip (text field))).
  { intros instance. eexists. split; [by apply field_body_named |].
    simpl. by rewrite lookup_insert_eq. }
  split.
  { destruct (text field) as [s|]; [| done].
    assert (Hvalue : text_and_strip (Some s) = Some (strip s)).
    { by destruct s. }
    rewrite Hvalue.
    destruct (strip_spec s)
      as (pre & post & Hs & Hpre & Hpost & Hhead & Hlast).
    split; [by exists pre, post |]. split; [done |]. split; [done |].
    by intros ->. }
  destruct (request_from_node_Return _ _ _ _ Hroot Hr)
    as (_ & en & i1 & i2 & _ & _ & Hloop & Hlim).
  rewrite Hfields, Hsplit, for_each_app in Hloop.
  apply bind_inv_Return in Hloop as (s1 & _ & Hloop). simpl in Hloop.
  destruct (Hstep s1) as (s2 & Hs2 & Hkey). rewrite Hs2, bind_Return in Hloop.
  assert (Hfinal : fields r = fields i2).
  { destruct (find "Limits" inner); [| by subst].
    by destruct Hlim as (soft & hard & _ & _ & ->). }
  rewrite Hfinal. split; [done |]. split.
  - apply (field_loop_keeps_key _ _ _ _ Hloop). by rewrite Hkey.
  - intros Hlater. by apply (field_loop_keeps_value _ _ _ _ _ Hloop).
Qed.

(** *** Rendering *)

Lemma update_last_snoc f t a tx cs c :
  update_last f (Element t a tx (cs ++ [c])) = Element t a tx (cs ++ [f c]).
Proof.
  unfold update_last. simpl. rewrite reverse_snoc, reverse_cons.
  by rewrite reverse_involutive.
Qed.

(** Appending through the reference to the last child fills that child,
    in order, and leaves its siblings alone. *)
Lemma fill_last_child {A} (render : A → node) (xs : list A)
      t a tx cs t' a' tx' cs' :
  fold_left
    (λ node x, update_last (λ child, append child (render x)) node)
    xs (Element t a tx (cs ++ [Element t' a' tx' cs']))
  = Element t a tx (cs ++ [Element t' a' tx' (cs' ++ (render <$> xs))]).
Proof.
  revert cs'. induction xs as [|x xs IH]; intros cs'; simpl.
  - by rewrite app_nil_r.
  - rewrite update_last_snoc.
    change (append (Element t' a' tx' cs') (render x))
      with (Element t' a' tx' (cs' ++ [render x])).
    rewrite IH. by rewrite <- app_assoc.
Qed.

Lemma MaltegoMessage_to_node_shape (c : cls) (self : message) :
  MaltegoMessage_to_node c self
  = Element (message_tag c) ∅ None (rendered_ui_messages self).
Proof.
  unfold MaltegoMessage_to_node, rendered_ui_messages.
  destruct (ui_messages self) as [|m ms] eqn:Hui; [done |].
  unfold SubNode, append, Node. simpl getchildren. simpl tag. simpl attrib.
  simpl text.
  exact (fill_last_child XMLObject.to_node (m :: ms)
           (message_tag c) ∅ None [] "UIMessages" ∅ None []).
Qed.

Lemma TransformResponse_to_node_shape (self : message) :
  response_to_node self
  = Element "MaltegoTransformResponseMessage" ∅ None
      (rendered_ui_messages self
       ++ [Element "Entities" ∅ None (XMLObject.to_node <$> entities self)]).
Proof.
  unfold TransformResponse_to_node. rewrite MaltegoMessage_to_node_shape.
  unfold SubNode, append, Node. simpl getchildren. simpl tag. simpl attrib.
  simpl text.
  exact (fill_last_child XMLObject.to_node (entities self)
           "MaltegoTransformResponseMessage" ∅ None
           (rendered_ui_messages self) "Entities" ∅ None []).
Qed.

Lemma find_entities_rendered (self : message) :
  find "Entities" (response_to_node self)
  = Some (Element "Entities" ∅ None (XMLObject.to_node <$> entities self)).
Proof.
  rewrite TransformResponse_to_node_shape. unfold find, rendered_ui_messages.
  by destruct (ui_messages self).
Qed.

Lemma find_ui_messages_rendered (self : message) :
  find "UIMessages" (response_to_node self)
  = match ui_messages self with
    | [] => None
    | _ :: _ =>
      Some (Element "UIMessages" ∅ None
              (XMLObject.to_node <$> ui_messages self))
    end.
Proof.
  rewrite TransformResponse_to_node_shape. unfold find, rendered_ui_messages.
  by destruct (ui_messages self).
Qed.

(** C4: in a rendered response a child tagged [UIMessages] exists
    exactly when [ui_messages] is not empty; the [Entities] child is
    always there and holds the rendered entities in list order; with
    entities [E1; E2] and no UI message the document is the root, the
    message element and an [Entities] element with the two entities. *)
Theorem response_rendering (self : message) (E1 E2 : Entity) :
  ((∃ c, c ∈ getchildren (response_to_node self)
         ∧ tag c = "UIMessages") ↔ ui_messages self ≠ [])
  ∧ find "Entities" (response_to_node self)
    = Some (Element "Entities" ∅ None (XMLObject.to_node <$> entities self))
  ∧ response_to_xml_tree
      (response_init [E1; E2] (Some []))
    = Element "MaltegoMessage" ∅ None
        [Element "MaltegoTransformResponseMessage" ∅ None
           [Element "Entities" ∅ None
              [XMLObject.to_node E1; XMLObject.to_node E2]]].
Proof.
  split; [| split].
  - pose proof (find_ui_messages_rendered self) as Hfind. unfold find in Hfind.
    split.
    + intros (c & Hc & Htag) Hnil. rewrite Hnil in Hfind.
      apply (proj1 (find_first_None _ _) Hfind c Hc Htag).
    + intros Hne. destruct (ui_messages self) as [|m ms]; [done |].
      apply find_first_Some in Hfind as [Hin Htag]. eauto.
  - apply find_entities_rendered.
  - unfold to_xml_tree. by rewrite TransformResponse_to_node_shape.
Qed.

(** *** Decoding a response *)

Lemma collect_loop_returns {A} `{!XMLObject.t A} (cs : list node)
      (acc : list A) :
  (∀ c, c ∈ cs → returns (XMLObject.from_node (A:=A) c)) →
  returns (for_each (λ acc c, x ← XMLObject.from_node c; Return (acc ++ [x]))
                    cs acc).
Proof.
  intros Hcs. apply for_each_returns. intros s c Hc.
  destruct (Hcs c Hc) as [x Hx]. rewrite Hx. by eexists.
Qed.

Lemma collect_loop_round_trip {A} `{!XMLObject.t A} (xs acc : list A) :
  (∀ x, x ∈ xs → XMLObject.from_node (XMLObject.to_node x) = Return x) →
  for_each (λ acc c, x ← XMLObject.from_node c; Return (acc ++ [x]))
           (XMLObject.to_node <$> xs) acc
  = Return (acc ++ xs).
Proof.
  revert acc. induction xs as [|x xs IH]; intros acc Hxs; simpl.
  - by rewrite app_nil_r.
  - rewrite Hxs by left. rewrite !bind_Return, IH.
    + by rewrite <- app_assoc.
    + intros x' Hx'. apply Hxs. by right.
Qed.

(** The response decoder on the document rendered from [self]. *)
Lemma response_from_node_rendered (self : message) :
  response_from_node
    (PyElement (response_to_xml_tree self))
  = (entities ←
       for_each (λ acc c, e ← XMLObject.from_node c; Return (acc ++ [e]))
                (XMLObject.to_node <$> entities self) [];
     messages ←
       match ui_messages self with
       | [] => Raise none_getchildren
       | _ :: _ => Return (XMLObject.to_node <$> ui_messages self)
       end;
     ui_messages ←
       for_each (λ acc c, m ← XMLObject.from_node c; Return (acc ++ [m]))
                messages [];
     Return (response_init entities (Some ui_messages))).
Proof.
  unfold TransformResponse_from_node.
  rewrite (from_node_inner TransformResponseCls
             (response_to_xml_tree self)
             (response_to_node self) []);
    [| done | by rewrite TransformResponse_to_node_shape].
  rewrite bind_Return, find_entities_rendered, find_ui_messages_rendered.
  by destruct (ui_messages self).
Qed.

(** The round trip of a response that carries at least one UI message,
    for collaborators whose decoding inverts their rendering. *)
Lemma response_round_trip_with_ui_messages (es : list Entity)
      (m : UIMessage) (ms : list UIMessage) :
  (∀ e, e ∈ es → XMLObject.from_node (XMLObject.to_node e) = Return e) →
  (∀ x, x ∈ m :: ms → XMLObject.from_node (XMLObject.to_node x) = Return x) →
  response_from_node
    (PyElement (response_to_xml_tree
                  (response_init es (Some (m :: ms)))))
  = Return (response_init es (Some (m :: ms))).
Proof.
  intros Hes Hms. rewrite response_from_node_rendered.
  change (entities (response_init es (Some (m :: ms)))) with es.
  change (ui_messages (response_init es (Some (m :: ms))))
    with (m :: ms).
  rewrite (collect_loop_round_trip es [] Hes), bind_Return.
  cbv beta iota. rewrite bind_Return.
  by rewrite (collect_loop_round_trip (m :: ms) [] Hms).
Qed.

(** C2: rendering a response built without UI messages ([None] or an
    empty list) and decoding the document never returns a response,
    whatever the entities; with no entity either, the decode raises the
    [AttributeError] of [None.getchildren()]. *)
Theorem response_round_trip_without_ui_messages (es : list Entity) :
  ¬ returns (response_from_node
               (PyElement (response_to_xml_tree
                             (response_init es None))))
  ∧ ¬ returns (response_from_node
                 (PyElement (response_to_xml_tree
                               (response_init es (Some [])))))
  ∧ response_from_node
      (PyElement (response_to_xml_tree
                    (response_init [] None)))
    = Raise none_getchildren.
Proof.
  split; [| split].
  - rewrite (response_from_node_rendered (response_init es None)).
    apply not_returns_bind. intros entities. apply not_returns_Raise.
  - rewrite (response_from_node_rendered (response_init es (Some []))).
    apply not_returns_bind. intros entities. apply not_returns_Raise.
  - by rewrite (response_from_node_rendered (response_init [] None)).
Qed.

(** C3, amended: a response decode of a document whose message element
    has no [UIMessages] child never returns a response; when moreover
    the element carries the response tag and an [Entities] child whose
    children the entity collaborator decodes, the decode raises
    [AttributeError], which is neither the [ValueError] nor the
    [MalformedMessageError] of the taxonomy. *)
Theorem response_without_ui_messages_element (root inner : node)
        (rest : list node) :
  getchildren root = inner :: rest →
  (∀ c, c ∈ getchildren inner → tag c ≠ "UIMessages") →
  ¬ returns (response_from_node (PyElement root))
  ∧ (tag inner = "MaltegoTransformResponseMessage" →
     ∀ entity_nodes,
       find "Entities" inner = Some entity_nodes →
       (∀ c, c ∈ getchildren entity_nodes →
             returns (XMLObject.from_node (A:=Entity) c)) →
       response_from_node (PyElement root) = Raise none_getchildren
       ∧ ∃ text, none_getchildren = AttributeError text
           ∧ ∀ msg, none_getchildren ≠ ValueError msg
                    ∧ none_getchildren ≠ MalformedMessageError msg).
Proof.
  intros Hroot Hnone. apply find_first_None in Hnone.
  unfold TransformResponse_from_node. split.
  - destruct (decide (tag inner = message_tag TransformResponseCls))
      as [Htag|Htag].
    2: { rewrite (from_node_wrong_tag _ _ _ _ Hroot Htag).
         apply not_returns_Raise. }
    rewrite (from_node_inner _ _ _ _ Hroot Htag), bind_Return.
    destruct (find "Entities" inner); [| apply not_returns_Raise].
    apply not_returns_bind. intros entities. unfold find. rewrite Hnone.
    apply not_returns_Raise.
  - intros Htag entity_nodes Hentities Hdecode.
    rewrite (from_node_inner TransformResponseCls _ _ _ Hroot Htag).
    rewrite bind_Return, Hentities.
    destruct (collect_loop_returns (getchildren entity_nodes) [] Hdecode)
      as [entities ->].
    rewrite bind_Return. unfold find. rewrite Hnone. split; [done |].
    eexists. split; [reflexivity |]. intros msg. split; discriminate.
Qed.

End Decoding.

(** ** Instances on concrete documents *)

(** The smallest request, [<Entities/>] alone: no entity, no field and
    the default limits. *)
Example request_minimal :
  TransformRequest_from_node (Entity:=entity) (UIMessage:=ui_message)
    (PyElement (request [empty_entities]))
  = Return (Message [] ∅ 500 10000 []).
Proof. reflexivity. Qed.

(** Two fields of the same name: the later one is kept. *)
Example request_two_fields_decoded :
  TransformRequest_from_node (Entity:=entity) (UIMessage:=ui_message)
    (PyElement request_two_fields)
  = Return (Message [] {[ "x" := None ]} 500 10000 []).
Proof. vm_compute. reflexivity. Qed.

Example strip_padded : strip "  a b  " = "a b".
Proof. reflexivity. Qed.

Example int_literals :
  int (PyStr " -1_000 ") = Return (-1000)
  ∧ int (PyStr "10") = Return 10
  ∧ ¬ returns (int (PyStr "ten"))
  ∧ ¬ returns (int (PyStr "")).
Proof. repeat split; try reflexivity; apply not_returns_Raise. Qed.

(** A response with a UI message survives rendering and decoding. *)
Example response_round_trip_example :
  TransformResponse_from_node
    (PyElement
       (to_xml_tree TransformResponse_to_node
          (TransformResponse_init [EntityValue "a"; EntityValue "b"]
                                  (Some [UIMessageText "m"]))))
  = Return (TransformResponse_init [EntityValue "a"; EntityValue "b"]
                                   (Some [UIMessageText "m"])).
Proof. reflexivity. Qed.

(** [from_node] of a string, on every class. *)
Lemma from_node_rejects_non_element_witness :
  (∀ c, MaltegoMessage_from_node c (PyStr "<MaltegoMessage/>")
        = Raise (ValueError "Is not an `etree.Element` instance."))
  ∧ TransformRequest_from_node (Entity:=entity) (UIMessage:=ui_message)
      (PyStr "<MaltegoMessage/>")
    = Raise (ValueError "Is not an `etree.Element` instance.")
  ∧ TransformResponse_from_node (Entity:=entity) (UIMessage:=ui_message)
      (PyStr "<MaltegoMessage/>")
    = Raise (ValueError "Is not an `etree.Element` instance.").
Proof.
  apply (from_node_rejects_non_element (Entity:=entity)
           (UIMessage:=ui_message) (PyStr "<MaltegoMessage/>")).
  reflexivity.
Defined.

(** [<MaltegoMessage/>] has no child to take. *)
Lemma from_node_of_childless_element_witness :
  ∃ e, e = IndexError "list index out of range"
    ∧ (∀ c, MaltegoMessage_from_node c (PyElement (Node "MaltegoMessage"))
            = Raise e)
    ∧ TransformRequest_from_node (Entity:=entity) (UIMessage:=ui_message)
        (PyElement (Node "MaltegoMessage")) = Raise e
    ∧ TransformResponse_from_node (Entity:=entity) (UIMessage:=ui_message)
        (PyElement (Node "MaltegoMessage")) = Raise e
    ∧ (∀ msg, e ≠ ValueError msg ∧ e ≠ MalformedMessageError msg).
Proof.
  apply (from_node_of_childless_element (Entity:=entity)
           (UIMessage:=ui_message) (Node "MaltegoMessage")).
  reflexivity.
Defined.

(** [<MaltegoMessage><MaltegoWrongMessage/></MaltegoMessage>] *)
Lemma request_wrong_inner_tag_witness :
  TransformRequest_from_node (Entity:=entity) (UIMessage:=ui_message)
    (PyElement (document (Node "MaltegoWrongMessage")))
  = Raise (MalformedMessageError
             "MaltegoWrongMessage is invalid MaltegoMessage Type.").
Proof.
  apply (request_wrong_inner_tag (Entity:=entity) (UIMessage:=ui_message)
           (document (Node "MaltegoWrongMessage"))
           (Node "MaltegoWrongMessage") []).
  - reflexivity.
  - simpl. discriminate.
Defined.

(** A request with fields and limits but no [Entities]. *)
Lemma request_without_entities_witness :
  TransformRequest_from_node (Entity:=entity) (UIMessage:=ui_message)
    (PyElement (request [transform_fields [field_x_padded]; limits_soft_10]))
  = Raise entities_tag_required
  ∧ ∃ msg, entities_tag_required = MalformedMessageError msg.
Proof.
  apply (request_without_entities (Entity:=entity) (UIMessage:=ui_message)
           (request [transform_fields [field_x_padded]; limits_soft_10])
           (Element "MaltegoTransformRequestMessage" ∅ None
                    [transform_fields [field_x_padded]; limits_soft_10]) []).
  - reflexivity.
  - reflexivity.
  - intros c Hc. simpl in Hc.
    apply elem_of_cons in Hc as [-> | Hc]; [simpl; discriminate |].
    apply elem_of_cons in Hc as [-> | Hc]; [simpl; discriminate |].
    by apply elem_of_nil in Hc.
Defined.

(** A nameless field after an empty [Entities]. *)
Lemma request_field_without_name_witness :
  ∃ msg,
    TransformRequest_from_node (Entity:=entity) (UIMessage:=ui_message)
      (PyElement (request [empty_entities;
                           transform_fields [field_x_padded; field_nameless]]))
    = Raise (MalformedMessageError msg).
Proof.
  apply (request_field_without_name (Entity:=entity) (UIMessage:=ui_message)
           (request [empty_entities;
                     transform_fields [field_x_padded; field_nameless]])
           (Element "MaltegoTransformRequestMessage" ∅ None
                    [empty_entities;
                     transform_fields [field_x_padded; field_nameless]])
           (transform_fields [field_x_padded; field_nameless])
           field_nameless []).
  - reflexivity.
  - reflexivity.
  - simpl. right. left.
  - reflexivity.
  - intros entity_nodes c Hfind Hc. injection Hfind as <-.
    by apply elem_of_nil in Hc.
Defined.

(** C7, as stated, fails: the entity collaborator raises on the entity
    before the nameless field is looked at, and its exception is what
    the decode raises. *)
Lemma request_field_without_name_counterexample :
  find "TransformFields"
       (Element "MaltegoTransformRequestMessage" ∅ None
                [Element "Entities" ∅ None [Element "Bogus" ∅ None []];
                 transform_fields [field_nameless]])
  = Some (transform_fields [field_nameless])
  ∧ attrib field_nameless !! "Name" = None
  ∧ TransformRequest_from_node (Entity:=entity) (UIMessage:=ui_message)
      (PyElement request_bogus_entity)
    = Raise (OtherError "MalformedEntityError" "Bogus")
  ∧ ¬ ∃ msg,
        TransformRequest_from_node (Entity:=entity) (UIMessage:=ui_message)
          (PyElement request_bogus_entity)
        = Raise (MalformedMessageError msg).
Proof.
  split; [reflexivity |]. split; [reflexivity |]. split; [reflexivity |].
  intros [msg Hmsg]. vm_compute in Hmsg. discriminate.
Qed.

(** The field [<Field Name="x">  a b  </Field>], followed by a field of
    another name: the value stored and returned is [a b]. *)
Lemma request_field_with_name_witness :
  ∃ value : option string,
    match text field_x_padded, value with
    | None, None => True
    | Some s, Some v =>
      (∃ pre post,
         list_ascii_of_string s = pre ++ list_ascii_of_string v ++ post
         ∧ Forall (λ c, isspace c = true) pre
         ∧ Forall (λ c, isspace c = true) post)
      ∧ match list_ascii_of_string v with
        | c :: _ => isspace c = false
        | [] => True
        end
      ∧ match rev (list_ascii_of_string v) with
        | c :: _ => isspace c = false
        | [] => True
        end
      ∧ (s = EmptyString → v = EmptyString)
    | _, _ => False
    end
    ∧ (∀ instance : message entity ui_message,
         ∃ instance', field_body instance field_x_padded = Return instance'
           ∧ fields instance' !! "x" = Some value)
    ∧ is_Some (fields request_full_decoded !! "x")
    ∧ fields request_full_decoded !! "x" = Some value
    ∧ fields request_full_decoded !! "x" = Some (Some "a b").
Proof.
  destruct (request_field_with_name (Entity:=entity) (UIMessage:=ui_message)
              request_full (request_message request_full_children)
              fields_x_y field_x_padded [] [] [field_y] "x"
              request_full_decoded)
    as (value & Htrim & Hbody & Hkey & Hvalue).
  - reflexivity.
  - reflexivity.
  - reflexivity.
  - reflexivity.
  - vm_compute. reflexivity.
  - exists value. split; [exact Htrim |]. split; [exact Hbody |].
    split; [exact Hkey |]. split; [| reflexivity].
    apply Hvalue. intros g Hg.
    apply elem_of_cons in Hg as [-> | Hg]; [simpl; discriminate |].
    by apply elem_of_nil in Hg.
Defined.

(** C3, as stated, fails: a response message element without any child
    lacks [UIMessages], and the decode raises the typed
    [MalformedMessageError] for the missing [Entities]. *)
Lemma response_without_ui_messages_element_counterexample :
  (∀ c, c ∈ getchildren (Node "MaltegoTransformResponseMessage") →
        tag c ≠ "UIMessages")
  ∧ TransformResponse_from_node (Entity:=entity) (UIMessage:=ui_message)
      (PyElement (response []))
    = Raise entities_tag_required
  ∧ (∃ msg, entities_tag_required = MalformedMessageError msg)
  ∧ ¬ ∃ text,
        TransformResponse_from_node (Entity:=entity) (UIMessage:=ui_message)
          (PyElement (response []))
        = Raise (AttributeError text).
Proof.
  split; [intros c Hc; by apply elem_of_nil in Hc |].
  split; [reflexivity |]. split; [by eexists |].
  intros [text Htext]. vm_compute in Htext. discriminate.
Qed.

(** A response document with entities and no [UIMessages]. *)
Lemma response_without_ui_messages_element_witness :
  ¬ returns (TransformResponse_from_node (Entity:=entity)
               (UIMessage:=ui_message)
               (PyElement (response [empty_entities])))
  ∧ TransformResponse_from_node (Entity:=entity) (UIMessage:=ui_message)
      (PyElement (response [empty_entities]))
    = Raise none_getchildren.
Proof.
  destruct (response_without_ui_messages_element (Entity:=entity)
              (UIMessage:=ui_message)
              (response [empty_entities])
              (Element "MaltegoTransformResponseMessage" ∅ None
                       [empty_entities]) [])
    as [Hfails Hraise].
  - reflexivity.
  - intros c Hc. apply elem_of_cons in Hc as [-> | Hc]; [simpl; discriminate |].
    by apply elem_of_nil in Hc.
  - split; [exact Hfails |].
    destruct (Hraise eq_refl empty_entities eq_refl) as [Hresult _].
    + intros c Hc. by apply elem_of_nil in Hc.
    + exact Hresult.
Defined.

(** ** Further properties of the codec *)

Section Coverage.
Context {Entity UIMessage : Type}.
Context `{!XMLObject.t Entity, !XMLObject.t UIMessage}.

Local Abbreviation message := (message Entity UIMessage).
Local Abbreviation request_from_node :=
  (TransformRequest_from_node (Entity:=Entity) (UIMessage:=UIMessage)).
Local Abbreviation response_from_node :=
  (TransformResponse_from_node (Entity:=Entity) (UIMessage:=UIMessage)).
Local Abbreviation response_to_node :=
  (TransformResponse_to_node (Entity:=Entity) (UIMessage:=UIMessage)).
Local Abbreviation response_init :=
  (TransformResponse_init (Entity:=Entity) (UIMessage:=UIMessage)).
Local Abbreviation response_to_xml_tree :=
  (to_xml_tree (Entity:=Entity) (UIMessage:=UIMessage) response_to_node).
Local Abbreviation request_to_xml_tree :=
  (to_xml_tree (Entity:=Entity) (UIMessage:=UIMessage)
               (MaltegoMessage_to_node TransformRequestCls)).

(** *** The loops *)

Lemma collect_loop_Return {A} `{!XMLObject.t A} (cs : list node)
      (acc out : list A) :
  for_each (λ acc c, x ← XMLObject.from_node c; Return (acc ++ [x])) cs acc
  = Return out →
  ∃ xs, Forall2 (λ c x, XMLObject.from_node c = Return x) cs xs
        ∧ out = acc ++ xs.
Proof.
  revert acc. induction cs as [|c cs IH]; intros acc; simpl.
  - intros [= <-]. exists []. split; [constructor | by rewrite app_nil_r].
  - destruct (XMLObject.from_node c) as [x|e] eqn:Hc; [| done].
    rewrite bind_Return. intros Hloop.
    destruct (IH _ Hloop) as (xs & Hxs & ->). exists (x :: xs).
    split; [by constructor | by rewrite <- app_assoc].
Qed.

Lemma collect_loop_Raise {A} `{!XMLObject.t A} (before after : list node)
      (c : node) (e : exn) (acc : list A) :
  (∀ b, b ∈ before → returns (XMLObject.from_node (A:=A) b)) →
  XMLObject.from_node (A:=A) c = Raise e →
  for_each (λ acc c, x ← XMLObject.from_node c; Return (acc ++ [x]))
           (before ++ c :: after) acc
  = Raise e.
Proof.
  intros Hbefore Hc. rewrite for_each_app.
  destruct (collect_loop_returns before acc Hbefore) as [out ->].
  rewrite bind_Return. simpl. by rewrite Hc.
Qed.

Lemma entity_loop_Return (cs : list node) (instance instance' : message) :
  for_each entity_body cs instance = Return instance' →
  ∃ es, Forall2 (λ c e, XMLObject.from_node c = Return e) cs es
        ∧ instance' = set_entities instance (entities instance ++ es).
Proof.
  revert instance. induction cs as [|c cs IH]; intros instance; simpl.
  - intros [= <-]. exists []. split; [constructor |].
    destruct instance. unfold set_entities. simpl. by rewrite app_nil_r.
  - change (entity_body instance c)
      with (XMLObject.from_node c
              ≫= λ e : Entity, Return (append_entity instance e)).
    destruct (XMLObject.from_node c) as [e|err] eqn:Hc;
      [| intros Hloop; discriminate Hloop].
    rewrite !bind_Return. intros Hloop.
    destruct (IH _ Hloop) as (es & Hes & ->). exists (e :: es).
    split; [by constructor |].
    unfold set_entities, append_entity. simpl. by rewrite <- app_assoc.
Qed.

Lemma entity_loop_Raise (before after : list node) (c : node) (e : exn)
      (instance : message) :
  (∀ b, b ∈ before → returns (XMLObject.from_node (A:=Entity) b)) →
  XMLObject.from_node (A:=Entity) c = Raise e →
  for_each entity_body (before ++ c :: after) instance = Raise e.
Proof.
  intros Hbefore Hc. rewrite for_each_app.
  destruct (entity_loop_returns before instance Hbefore) as [out ->].
  rewrite bind_Return. simpl.
  change (entity_body out c)
    with (XMLObject.from_node c ≫= λ e : Entity, Return (append_entity out e)).
  by rewrite Hc.
Qed.

Lemma field_loop_frame (fs : list node) (instance instance' : message) :
  for_each field_body fs instance = Return instance' →
  entities instance' = entities instance
  ∧ soft_limit instance' = soft_limit instance
  ∧ hard_limit instance' = hard_limit instance
  ∧ ui_messages instance' = ui_messages instance.
Proof.
  revert instance. induction fs as [|f fs IH]; intros instance; simpl.
  - by intros [= <-].
  - destruct (field_body_cases instance f) as [[_ ->] | (n & _ & ->)];
      [done |].
    rewrite bind_Return. intros Hloop. by destruct (IH _ Hloop).
Qed.

(** Every entry of the mapping was there before the loop or comes from
    a field of that name. *)
Lemma field_loop_lookup_inv (fs : list node) (instance instance' : message)
      name value :
  for_each field_body fs instance = Return instance' →
  fields instance' !! name = Some value →
  fields instance !! name = Some value
  ∨ ∃ f, f ∈ fs ∧ attrib f !! "Name" = Some name
         ∧ value = text_and_strip (text f).
Proof.
  revert instance. induction fs as [|f fs IH]; intros instance; simpl.
  - intros [= <-]. by left.
  - destruct (field_body_cases instance f) as [[_ ->] | (n & Hn & ->)];
      [done |].
    rewrite bind_Return. intros Hloop Hvalue.
    destruct (IH _ Hloop Hvalue) as [Hold | (g & Hg & Hname & ->)].
    + simpl in Hold. rewrite lookup_insert in Hold. case_decide as Heq.
      * injection Hold as <-. subst n. right. exists f.
        split; [left | done].
      * by left.
    + right. exists g. split; [by right | done].
Qed.

Lemma field_loop_returns (fs : list node) (instance : message) :
  (∀ f, f ∈ fs → is_Some (attrib f !! "Name")) →
  returns (for_each field_body fs instance).
Proof.
  intros Hfs. apply for_each_returns. intros s f Hf.
  destruct (Hfs f Hf) as [n Hn]. rewrite (field_body_named _ _ _ Hn).
  by eexists.
Qed.

Lemma text_and_strip_fmap (text : option string) :
  text_and_strip text = strip <$> text.
Proof. by destruct text as [[|c s]|]. Qed.

Lemma int_attrib_Some (limit : node) (key s : string) (d : Z) :
  attrib limit !! key = Some s →
  int (attrib_get limit key (PyInt d)) = int (PyStr s).
Proof. intros Hkey. unfold attrib_get. by rewrite Hkey. Qed.

Lemma int_attrib_None (limit : node) (key : string) (d : Z) :
  attrib limit !! key = None →
  int (attrib_get limit key (PyInt d)) = Return d.
Proof. intros Hkey. unfold attrib_get. by rewrite Hkey. Qed.

Lemma int_str_Return (s : string) (z : Z) :
  int (PyStr s) = Return z ↔ parse_int s = Some z.
Proof.
  simpl. destruct (parse_int s) as [z'|]; split; intros Hz; try done.
  - by injection Hz as ->.
  - by injection Hz as ->.
Qed.

Lemma int_str_Raise (s : string) :
  parse_int s = None → ∃ msg, int (PyStr s) = Raise (ValueError msg).
Proof. intros Hs. simpl. rewrite Hs. by eexists. Qed.

(** A request decode whose envelope, entities and fields are in order
    gets as far as the limits. *)
Lemma request_from_node_limits (root inner entity_nodes : node) rest :
  getchildren root = inner :: rest →
  tag inner = "MaltegoTransformRequestMessage" →
  find "Entities" inner = Some entity_nodes →
  (∀ c, c ∈ getchildren entity_nodes →
        returns (XMLObject.from_node (A:=Entity) c)) →
  (∀ fields_node f,
     find "TransformFields" inner = Some fields_node →
     f ∈ getchildren fields_node → is_Some (attrib f !! "Name")) →
  ∃ i2 : message,
    request_from_node (PyElement root)
    = match find "Limits" inner with
      | Some limit =>
        soft ← int (attrib_get limit "SoftLimit" (PyInt DEFAULT_SOFT_LIMIT));
        hard ← int (attrib_get limit "HardLimit" (PyInt DEFAULT_SOFT_LIMIT));
        Return (set_hard_limit (set_soft_limit i2 soft) hard)
      | None => Return i2
      end.
Proof.
  intros Hroot Htag Hentities Hdecode Hnamed. unfold TransformRequest_from_node.
  rewrite (from_node_inner TransformRequestCls _ _ _ Hroot Htag).
  rewrite bind_Return, Hentities.
  destruct (entity_loop_returns (getchildren entity_nodes)
              (MaltegoMessage_init : message) Hdecode) as [i1 ->].
  rewrite bind_Return.
  destruct (find "TransformFields" inner) as [fields_node|].
  - destruct (field_loop_returns (getchildren fields_node) i1) as [i2 ->].
    + intros f Hf. by apply (Hnamed fields_node).
    + rewrite bind_Return. by exists i2.
  - rewrite bind_Return. by exists i1.
Qed.

(** *** The request decoder *)

(** X1: the entities of a decoded request are the children of the first
    [Entities] element as the collaborator decodes them, one for one and
    in document order; a request never carries UI messages. *)
Theorem request_entities_in_order (root inner entity_nodes : node)
        (rest : list node) (r : message) :
  getchildren root = inner :: rest →
  find "Entities" inner = Some entity_nodes →
  request_from_node (PyElement root) = Return r →
  Forall2 (λ c e, XMLObject.from_node c = Return e)
          (getchildren entity_nodes) (entities r)
  ∧ length (entities r) = length (getchildren entity_nodes)
  ∧ ui_messages r = [].
Proof.
  intros Hroot Hfind Hr.
  destruct (request_from_node_Return _ _ _ _ Hroot Hr)
    as (_ & en & i1 & i2 & Hen & Hloop & Hfields & Hlim).
  rewrite Hfind in Hen. injection Hen as <-.
  apply entity_loop_Return in Hloop as (es & Hes & ->).
  assert (Hi2 : entities i2 = es ∧ ui_messages i2 = []).
  { destruct (find "TransformFields" inner) as [fs|].
    - by destruct (field_loop_frame _ _ _ Hfields) as (-> & _ & _ & ->).
    - by injection Hfields as <-. }
  assert (Hfinal : entities r = es ∧ ui_messages r = []).
  { destruct (find "Limits" inner); [| by subst].
    by destruct Hlim as (soft & hard & _ & _ & ->). }
  destruct Hfinal as [-> ->]. split; [done |]. split; [| done].
  symmetry. by apply (Forall2_length _ _ _ Hes).
Qed.

(** X2: the keys of the [fields] mapping of a decoded request are
    exactly the [Name] attributes of the children of [TransformFields],
    each value is the stripped text of a field of that name, and without
    a [TransformFields] element the mapping is empty. *)
Theorem request_fields_exact (root inner : node) (rest : list node)
        (r : message) :
  getchildren root = inner :: rest →
  request_from_node (PyElement root) = Return r →
  match find "TransformFields" inner with
  | None => fields r = ∅
  | Some fields_node =>
    (∀ name, is_Some (fields r !! name)
             ↔ ∃ f, f ∈ getchildren fields_node
                    ∧ attrib f !! "Name" = Some name)
    ∧ (∀ name value,
         fields r !! name = Some value →
         ∃ f, f ∈ getchildren fields_node
              ∧ attrib f !! "Name" = Some name
              ∧ value = strip <$> text f)
  end.
Proof.
  intros Hroot Hr.
  destruct (request_from_node_Return _ _ _ _ Hroot Hr)
    as (_ & en & i1 & i2 & _ & Hloop & Hfields & Hlim).
  apply entity_loop_Return in Hloop as (es & _ & ->).
  assert (Hfinal : fields r = fields i2).
  { destruct (find "Limits" inner); [| by subst].
    by destruct Hlim as (soft & hard & _ & _ & ->). }
  rewrite Hfinal. clear Hfinal Hlim Hr.
  destruct (find "TransformFields" inner) as [fields_node|];
    [| by injection Hfields as <-].
  assert (Hinv : ∀ name value,
             fields i2 !! name = Some value →
             ∃ f, f ∈ getchildren fields_node
                  ∧ attrib f !! "Name" = Some name
                  ∧ value = strip <$> text f).
  { intros name value Hvalue.
    destruct (field_loop_lookup_inv _ _ _ _ _ Hfields Hvalue)
      as [Hold | (f & Hf & Hname & ->)].
    - simpl in Hold. by rewrite lookup_empty in Hold.
    - exists f. by rewrite text_and_strip_fmap. }
  split; [| exact Hinv]. intros name. split.
  - intros [value Hvalue]. destruct (Hinv _ _ Hvalue) as (f & Hf & Hname & _).
    by exists f.
  - intros (f & Hf & Hname).
    apply list_elem_of_split in Hf as (before & after & Hsplit).
    rewrite Hsplit, for_each_app in Hfields.
    apply bind_inv_Return in Hfields as (s1 & _ & Hfields). simpl in Hfields.
    rewrite (field_body_named _ _ _ Hname), bind_Return in Hfields.
    apply (field_loop_keeps_key _ _ _ _ Hfields). simpl.
    by rewrite lookup_insert_eq.
Qed.

(** X3: a request without a [Limits] element decodes with the limits
    of [__init__], 500 and 10000. *)
Theorem request_without_limits (root inner : node) (rest : list node)
        (r : message) :
  getchildren root = inner :: rest →
  (∀ c, c ∈ getchildren inner → tag c ≠ "Limits") →
  request_from_node (PyElement root) = Return r →
  soft_limit r = 500 ∧ hard_limit r = 10000.
Proof.
  intros Hroot Hnone Hr. apply find_first_None in Hnone.
  destruct (request_from_node_Return _ _ _ _ Hroot Hr)
    as (_ & en & i1 & i2 & _ & Hloop & Hfields & Hlim).
  unfold find in Hlim. rewrite Hnone in Hlim. subst r.
  apply entity_loop_Return in Hloop as (es & _ & ->).
  destruct (find "TransformFields" inner) as [fs|].
  - by destruct (field_loop_frame _ _ _ Hfields) as (_ & -> & -> & _).
  - by injection Hfields as <-.
Qed.

(** X4: when a request with a [Limits] element decodes, a [SoftLimit]
    attribute is the decimal literal of its soft limit and a [HardLimit]
    attribute that of its hard limit; a missing [SoftLimit] leaves 500. *)
Theorem request_limits_from_attributes (root inner limit : node)
        (rest : list node) (r : message) :
  getchildren root = inner :: rest →
  find "Limits" inner = Some limit →
  request_from_node (PyElement root) = Return r →
  (∀ s, attrib limit !! "SoftLimit" = Some s →
        parse_int s = Some (soft_limit r))
  ∧ (attrib limit !! "SoftLimit" = None → soft_limit r = 500)
  ∧ (∀ s, attrib limit !! "HardLimit" = Some s →
          parse_int s = Some (hard_limit r)).
Proof.
  intros Hroot Hlimit Hr.
  destruct (request_from_node_Return _ _ _ _ Hroot Hr)
    as (_ & en & i1 & i2 & _ & _ & _ & Hlim).
  rewrite Hlimit in Hlim. destruct Hlim as (soft & hard & Hsoft & Hhard & ->).
  simpl. split; [| split].
  - intros s Hs. rewrite (int_attrib_Some _ _ _ _ Hs) in Hsoft.
    by apply int_str_Return.
  - intros Hs. rewrite (int_attrib_None _ _ _ Hs) in Hsoft.
    by injection Hsoft as <-.
  - intros s Hs. rewrite (int_attrib_Some _ _ _ _ Hs) in Hhard.
    by apply int_str_Return.
Qed.

(** X5: a limit attribute that is no decimal literal makes the request
    decode raise [ValueError], once the envelope, the entities and the
    fields are in order. *)
Theorem request_limit_not_a_number (root inner entity_nodes limit : node)
        (rest : list node) (key s : string) :
  getchildren root = inner :: rest →
  tag inner = "MaltegoTransformRequestMessage" →
  find "Entities" inner = Some entity_nodes →
  (∀ c, c ∈ getchildren entity_nodes →
        returns (XMLObject.from_node (A:=Entity) c)) →
  (∀ fields_node f,
     find "TransformFields" inner = Some fields_node →
     f ∈ getchildren fields_node → is_Some (attrib f !! "Name")) →
  find "Limits" inner = Some limit →
  key = "SoftLimit" ∨ key = "HardLimit" →
  attrib limit !! key = Some s →
  parse_int s = None →
  ∃ msg, request_from_node (PyElement root) = Raise (ValueError msg).
Proof.
  intros Hroot Htag Hentities Hdecode Hnamed Hlimit Hkey Hs Hbad.
  destruct (request_from_node_limits _ _ _ _ Hroot Htag Hentities Hdecode
              Hnamed) as [i2 ->].
  rewrite Hlimit. destruct (int_str_Raise s Hbad) as [msg Hmsg].
  destruct Hkey as [-> | ->].
  - rewrite (int_attrib_Some _ _ _ _ Hs), Hmsg. by exists msg.
  - destruct (attrib limit !! "SoftLimit") as [s'|] eqn:Hsoft.
    + rewrite (int_attrib_Some _ _ _ _ Hsoft).
      destruct (parse_int s') as [z|] eqn:Hz.
      * rewrite (proj2 (int_str_Return s' z) Hz), bind_Return.
        rewrite (int_attrib_Some _ _ _ _ Hs), Hmsg. by exists msg.
      * destruct (int_str_Raise s' Hz) as [msg' ->]. by exists msg'.
    + rewrite (int_attrib_None _ _ _ Hsoft), bind_Return.
      rewrite (int_attrib_Some _ _ _ _ Hs), Hmsg. by exists msg.
Qed.

(** X6: a request document decodes whenever its message element has
    the request tag and an [Entities] child whose children the
    collaborator decodes, every field has a [Name], and the limit
    attributes that are present are decimal literals of at most 4300
    characters (longer ones [int] refuses in CPython 3.11 and later). *)
Theorem request_well_formed_returns (root inner entity_nodes : node)
        (rest : list node) :
  getchildren root = inner :: rest →
  tag inner = "MaltegoTransformRequestMessage" →
  find "Entities" inner = Some entity_nodes →
  (∀ c, c ∈ getchildren entity_nodes →
        returns (XMLObject.from_node (A:=Entity) c)) →
  (∀ fields_node f,
     find "TransformFields" inner = Some fields_node →
     f ∈ getchildren fields_node → is_Some (attrib f !! "Name")) →
  (∀ limit key s,
     find "Limits" inner = Some limit →
     key = "SoftLimit" ∨ key = "HardLimit" →
     attrib limit !! key = Some s →
     is_Some (parse_int s) ∧ Z.of_nat (String.length s) ≤ 4300) →
  returns (request_from_node (PyElement root)).
Proof.
  intros Hroot Htag Hentities Hdecode Hnamed Hnumeric.
  destruct (request_from_node_limits _ _ _ _ Hroot Htag Hentities Hdecode
              Hnamed) as [i2 ->].
  destruct (find "Limits" inner) as [limit|]; [| by eexists].
  assert (Hint : ∀ key, key = "SoftLimit" ∨ key = "HardLimit" →
            returns (int (attrib_get limit key (PyInt DEFAULT_SOFT_LIMIT)))).
  { intros key Hkey. destruct (attrib limit !! key) as [s|] eqn:Hs.
    - destruct (Hnumeric limit key s eq_refl Hkey Hs) as [[z Hz] _].
      rewrite (int_attrib_Some _ _ _ _ Hs). exists z.
      by apply int_str_Return.
    - rewrite (int_attrib_None _ _ _ Hs). by eexists. }
  destruct (Hint "SoftLimit") as [soft ->]; [by left |].
  destruct (Hint "HardLimit") as [hard ->]; [by right |].
  by eexists.
Qed.

(** X7: an exception of the entity collaborator leaves the request
    decoder unchanged: the decode raises what the first failing entity
    raised, whatever follows it in the document. *)
Theorem request_entity_error_propagates (root inner entity_nodes c : node)
        (rest before after : list node) (e : exn) :
  getchildren root = inner :: rest →
  tag inner = "MaltegoTransformRequestMessage" →
  find "Entities" inner = Some entity_nodes →
  getchildren entity_nodes = before ++ c :: after →
  (∀ b, b ∈ before → returns (XMLObject.from_node (A:=Entity) b)) →
  XMLObject.from_node (A:=Entity) c = Raise e →
  request_from_node (PyElement root) = Raise e.
Proof.
  intros Hroot Htag Hentities Hsplit Hbefore Hc.
  unfold TransformRequest_from_node.
  rewrite (from_node_inner TransformRequestCls _ _ _ Hroot Htag).
  rewrite bind_Return, Hentities, Hsplit.
  by rewrite (entity_loop_Raise _ _ _ _ _ Hbefore Hc).
Qed.

(** Where an entry of the decoded [fields] comes from. *)
Lemma request_field_origin (root inner : node) (rest : list node)
      (r : message) (name : string) (value : option string) :
  getchildren root = inner :: rest →
  request_from_node (PyElement root) = Return r →
  fields r !! name = Some value →
  ∃ fields_node f,
    find "TransformFields" inner = Some fields_node
    ∧ f ∈ getchildren fields_node
    ∧ attrib f !! "Name" = Some name
    ∧ value = strip <$> text f.
Proof.
  intros Hroot Hr.
  destruct (request_from_node_Return _ _ _ _ Hroot Hr)
    as (_ & en & i1 & i2 & _ & Hloop & Hfields & Hlim).
  apply entity_loop_Return in Hloop as (es & _ & ->).
  assert (Hfinal : fields r = fields i2).
  { destruct (find "Limits" inner); [| by subst].
    by destruct Hlim as (soft & hard & _ & _ & ->). }
  rewrite Hfinal. intros Hvalue.
  destruct (find "TransformFields" inner) as [fields_node|].
  - destruct (field_loop_lookup_inv _ _ _ _ _ Hfields Hvalue)
      as [Hold | (f & Hf & Hname & ->)].
    + simpl in Hold. by rewrite lookup_empty in Hold.
    + exists fields_node, f. by rewrite text_and_strip_fmap.
  - injection Hfields as <-. simpl in Hvalue. by rewrite lookup_empty in Hvalue.
Qed.

(** X8: a text stored in the [fields] of a decoded request neither
    starts nor ends with whitespace, and it is the text of a field of
    that name with whitespace taken off both ends and nothing else. *)
Theorem request_field_values_trimmed (root inner : node) (rest : list node)
        (r : message) (name value : string) :
  getchildren root = inner :: rest →
  request_from_node (PyElement root) = Return r →
  fields r !! name = Some (Some value) →
  match list_ascii_of_string value with
  | c :: _ => isspace c = false
  | [] => True
  end
  ∧ match rev (list_ascii_of_string value) with
    | c :: _ => isspace c = false
    | [] => True
    end
  ∧ ∃ fields_node f s pre post,
      find "TransformFields" inner = Some fields_node
      ∧ f ∈ getchildren fields_node
      ∧ attrib f !! "Name" = Some name
      ∧ text f = Some s
      ∧ list_ascii_of_string s = pre ++ list_ascii_of_string value ++ post
      ∧ Forall (λ c, isspace c = true) pre
      ∧ Forall (λ c, isspace c = true) post.
Proof.
  intros Hroot Hr Hvalue.
  destruct (request_field_origin _ _ _ _ _ _ Hroot Hr Hvalue)
    as (fields_node & f & Hfind & Hf & Hname & Htext).
  destruct (text f) as [s|] eqn:Hs; [| done]. injection Htext as ->.
  destruct (strip_spec s) as (pre & post & Hsplit & Hpre & Hpost & Hhd & Hlast).
  split; [done |]. split; [done |].
  by exists fields_node, f, s, pre, post.
Qed.

(** *** The response decoder *)

Lemma response_init_Some (es : list Entity) (ms : list UIMessage) :
  response_init es (Some ms) = Message es ∅ 500 10000 ms.
Proof. by destruct ms. Qed.

(** What a response decode that returns has gone through. *)
Lemma response_from_node_Return (root inner : node) rest (r : message) :
  getchildren root = inner :: rest →
  response_from_node (PyElement root) = Return r →
  tag inner = message_tag TransformResponseCls
  ∧ ∃ entity_nodes message_nodes es ms,
      find "Entities" inner = Some entity_nodes
      ∧ find "UIMessages" inner = Some message_nodes
      ∧ Forall2 (λ c e, XMLObject.from_node c = Return e)
                (getchildren entity_nodes) es
      ∧ Forall2 (λ c m, XMLObject.from_node c = Return m)
                (getchildren message_nodes) ms
      ∧ r = Message es ∅ 500 10000 ms.
Proof.
  intros Hroot. unfold TransformResponse_from_node.
  destruct (decide (tag inner = message_tag TransformResponseCls))
    as [Htag|Htag].
  2: { by rewrite (from_node_wrong_tag _ _ _ _ Hroot Htag). }
  rewrite (from_node_inner _ _ _ _ Hroot Htag), bind_Return.
  destruct (find "Entities" inner) as [entity_nodes|]; [| done].
  intros Hr. split; [done |].
  apply bind_inv_Return in Hr as (es' & Hes & Hr).
  apply bind_inv_Return in Hr as (messages & Hmessages & Hr).
  apply bind_inv_Return in Hr as (ms' & Hms & Hr).
  destruct (find "UIMessages" inner) as [message_nodes|]; [| done].
  injection Hmessages as <-.
  apply collect_loop_Return in Hes as (es & Hes & ->).
  apply collect_loop_Return in Hms as (ms & Hms & ->).
  exists entity_nodes, message_nodes, es, ms. do 4 (split; [done |]).
  injection Hr as <-. apply response_init_Some.
Qed.

(** X9: a decoded response holds the children of the first [Entities]
    and of the first [UIMessages] element as the collaborators decode
    them, one for one and in document order; its fields are empty and
    its limits the defaults, whatever else the document contains. *)
Theorem response_decoded_contents (root inner : node) (rest : list node)
        (r : message) :
  getchildren root = inner :: rest →
  response_from_node (PyElement root) = Return r →
  ∃ entity_nodes message_nodes,
    find "Entities" inner = Some entity_nodes
    ∧ find "UIMessages" inner = Some message_nodes
    ∧ Forall2 (λ c e, XMLObject.from_node c = Return e)
              (getchildren entity_nodes) (entities r)
    ∧ Forall2 (λ c m, XMLObject.from_node c = Return m)
              (getchildren message_nodes) (ui_messages r)
    ∧ fields r = ∅ ∧ soft_limit r = 500 ∧ hard_limit r = 10000.
Proof.
  intros Hroot Hr.
  destruct (response_from_node_Return _ _ _ _ Hroot Hr)
    as (_ & en & mn & es & ms & Hen & Hmn & Hes & Hms & ->).
  by exists en, mn.
Qed.

(** X10: a response document decodes whenever its message element has
    the response tag and both an [Entities] and a [UIMessages] child
    whose children the collaborators decode. *)
Theorem response_well_formed_returns
        (root inner entity_nodes message_nodes : node) (rest : list node) :
  getchildren root = inner :: rest →
  tag inner = "MaltegoTransformResponseMessage" →
  find "Entities" inner = Some entity_nodes →
  find "UIMessages" inner = Some message_nodes →
  (∀ c, c ∈ getchildren entity_nodes →
        returns (XMLObject.from_node (A:=Entity) c)) →
  (∀ c, c ∈ getchildren message_nodes →
        returns (XMLObject.from_node (A:=UIMessage) c)) →
  returns (response_from_node (PyElement root)).
Proof.
  intros Hroot Htag Hentities Hmessages Hes Hms.
  unfold TransformResponse_from_node.
  rewrite (from_node_inner TransformResponseCls _ _ _ Hroot Htag).
  rewrite bind_Return, Hentities, Hmessages.
  destruct (collect_loop_returns (getchildren entity_nodes) [] Hes)
    as [es ->].
  rewrite bind_Return. simpl.
  destruct (collect_loop_returns (getchildren message_nodes) [] Hms)
    as [ms ->].
  by eexists.
Qed.

(** X11: an exception of the UI-message collaborator leaves the
    response decoder unchanged, once the entities are decoded: the
    decode raises what the first failing UI message raised. *)
Theorem response_ui_message_error_propagates
        (root inner entity_nodes message_nodes c : node)
        (rest before after : list node) (e : exn) :
  getchildren root = inner :: rest →
  tag inner = "MaltegoTransformResponseMessage" →
  find "Entities" inner = Some entity_nodes →
  (∀ c, c ∈ getchildren entity_nodes →
        returns (XMLObject.from_node (A:=Entity) c)) →
  find "UIMessages" inner = Some message_nodes →
  getchildren message_nodes = before ++ c :: after →
  (∀ b, b ∈ before → returns (XMLObject.from_node (A:=UIMessage) b)) →
  XMLObject.from_node (A:=UIMessage) c = Raise e →
  response_from_node (PyElement root) = Raise e.
Proof.
  intros Hroot Htag Hentities Hes Hmessages Hsplit Hbefore Hc.
  unfold TransformResponse_from_node.
  rewrite (from_node_inner TransformResponseCls _ _ _ Hroot Htag).
  rewrite bind_Return, Hentities, Hmessages.
  destruct (collect_loop_returns (getchildren entity_nodes) [] Hes)
    as [es ->].
  rewrite bind_Return. simpl. rewrite Hsplit.
  by rewrite (collect_loop_Raise _ _ _ _ _ Hbefore Hc).
Qed.

(** *** Rendering and decoding together *)

(** X12: a response with at least one UI message comes back from
    rendering and decoding with the same entities and the same UI
    messages, in order, when each collaborator decodes what it
    renders. *)
Theorem response_round_trip (es : list Entity) (ms : list UIMessage) :
  ms ≠ [] →
  (∀ e, e ∈ es → XMLObject.from_node (XMLObject.to_node e) = Return e) →
  (∀ m, m ∈ ms → XMLObject.from_node (XMLObject.to_node m) = Return m) →
  ∃ r, TransformResponse_from_node
         (PyElement
            (to_xml_tree TransformResponse_to_node
                         (TransformResponse_init es (Some ms))))
       = Return r
       ∧ entities r = es ∧ ui_messages r = ms.
Proof.
  intros Hne Hes Hms. destruct ms as [|m ms]; [done |].
  exists (response_init es (Some (m :: ms))). split; [| done].
  rewrite (response_from_node_rendered (response_init es (Some (m :: ms)))).
  change (entities (response_init es (Some (m :: ms)))) with es.
  change (ui_messages (response_init es (Some (m :: ms)))) with (m :: ms).
  rewrite (collect_loop_round_trip es [] Hes), bind_Return.
  cbv beta iota. rewrite bind_Return.
  by rewrite (collect_loop_round_trip (m :: ms) [] Hms).
Qed.

(** X13: the message element of a rendered response has the response
    tag, no attribute and no text; its children are the [UIMessages]
    element with the rendered UI messages in list order, when there is
    any, and then the [Entities] element. *)
Theorem response_to_node_layout (self : message) :
  tag (response_to_node self) = "MaltegoTransformResponseMessage"
  ∧ attrib (response_to_node self) = ∅
  ∧ text (response_to_node self) = None
  ∧ getchildren (response_to_node self)
    = match ui_messages self with
      | [] => []
      | _ :: _ =>
        [Element "UIMessages" ∅ None
                 (XMLObject.to_node <$> ui_messages self)]
      end
      ++ [Element "Entities" ∅ None (XMLObject.to_node <$> entities self)].
Proof. by rewrite TransformResponse_to_node_shape. Qed.

(** X14: a request renders without its entities, fields and limits
    ([to_node] is the one of [MaltegoMessage]), so decoding the rendered
    request raises [MalformedMessageError] for the missing [Entities]. *)
Theorem request_rendering_not_decodable (self : message) :
  getchildren (MaltegoMessage_to_node TransformRequestCls self)
  = rendered_ui_messages self
  ∧ request_from_node (PyElement (request_to_xml_tree self))
    = Raise entities_tag_required.
Proof.
  split; [by rewrite MaltegoMessage_to_node_shape |].
  unfold TransformRequest_from_node.
  rewrite (from_node_inner TransformRequestCls (request_to_xml_tree self)
             (MaltegoMessage_to_node TransformRequestCls self) []);
    [| done | by rewrite MaltegoMessage_to_node_shape].
  rewrite bind_Return, MaltegoMessage_to_node_shape.
  unfold find, rendered_ui_messages. simpl getchildren.
  by destruct (ui_messages self).
Qed.

(** X15: each decoder rejects the rendering of the other kind of
    message with [MalformedMessageError], naming the tag it found. *)
Theorem decoders_reject_other_kind (self : message) :
  request_from_node (PyElement (response_to_xml_tree self))
  = Raise (MalformedMessageError
             "MaltegoTransformResponseMessage is invalid MaltegoMessage Type.")
  ∧ response_from_node (PyElement (request_to_xml_tree self))
    = Raise (MalformedMessageError
               "MaltegoTransformRequestMessage is invalid MaltegoMessage Type.").
Proof.
  split.
  - unfold TransformRequest_from_node.
    rewrite (from_node_wrong_tag TransformRequestCls
               (response_to_xml_tree self) (response_to_node self) []);
      [| done | by rewrite TransformResponse_to_node_shape].
    by rewrite TransformResponse_to_node_shape.
  - unfold TransformResponse_from_node.
    rewrite (from_node_wrong_tag TransformResponseCls
               (request_to_xml_tree self)
               (MaltegoMessage_to_node TransformRequestCls self) []);
      [| done | by rewrite MaltegoMessage_to_node_shape].
    by rewrite MaltegoMessage_to_node_shape.
Qed.

(** X16: the envelope check returns a node exactly when its argument is
    an element whose first child carries the tag of the class; the node
    returned is that first child, and further children of the root are
    not looked at. *)
Theorem envelope_returns_first_child (c : cls) (o : pyobj) (n : node) :
  MaltegoMessage_from_node c o = Return n
  ↔ ∃ root rest,
      o = PyElement root ∧ getchildren root = n :: rest
      ∧ tag n = message_tag c.
Proof.
  split.
  - destruct o as [| z | s | root]; try done.
    unfold MaltegoMessage_from_node. simpl.
    destruct (getchildren root) as [|first rest] eqn:Hroot; [done |].
    simpl. case_decide as Htag; [done |]. intros [= ->].
    exists root, rest. split; [done |]. split; [done |].
    by destruct (decide (tag n = message_tag c)).
  - intros (root & rest & -> & Hroot & Htag).
    by apply (from_node_inner c root n rest).
Qed.

(** *** What the decoders can raise *)

Lemma for_each_Raise {S X} (body : S → X → result S) xs s e :
  for_each body xs s = Raise e → ∃ s' x, x ∈ xs ∧ body s' x = Raise e.
Proof.
  revert s. induction xs as [|x xs IH]; intros s; simpl; [done |].
  destruct (body s x) as [s'|e'] eqn:Hbody.
  - rewrite bind_Return. intros Hloop.
    destruct (IH _ Hloop) as (s'' & x' & Hx' & Hraise).
    exists s'', x'. split; [by right | done].
  - intros [= ->]. exists s, x. split; [left | done].
Qed.

Lemma envelope_Raise (c : cls) (o : pyobj) (e : exn) :
  MaltegoMessage_from_node c o = Raise e →
  (∃ msg, e = ValueError msg)
  ∨ e = IndexError "list index out of range"
  ∨ (∃ msg, e = MalformedMessageError msg).
Proof.
  destruct o as [| z | s | root]; try (intros [= <-]; left; by eexists).
  unfold MaltegoMessage_from_node. simpl.
  destruct (getchildren root) as [|first rest]; simpl.
  - intros [= <-]. right. by left.
  - case_decide; [| done]. intros [= <-]. right. right. by eexists.
Qed.

Lemma int_attrib_Raise (limit : node) (key : string) (d : Z) (e : exn) :
  int (attrib_get limit key (PyInt d)) = Raise e → ∃ msg, e = ValueError msg.
Proof.
  unfold attrib_get. destruct (attrib limit !! key) as [s|]; simpl; [| done].
  destruct (parse_int s); [done |]. intros [= <-]. by eexists.
Qed.

(** X17: a request decode raises nothing but the [ValueError] of the
    envelope check or of a limit that is no number, the [IndexError] of
    a root without children, a [MalformedMessageError], or what the
    entity collaborator raised on a child of [Entities]. *)
Theorem request_errors (o : pyobj) (e : exn) :
  request_from_node o = Raise e →
  (∃ msg, e = ValueError msg)
  ∨ e = IndexError "list index out of range"
  ∨ (∃ msg, e = MalformedMessageError msg)
  ∨ (∃ c, XMLObject.from_node (A:=Entity) c = Raise e).
Proof.
  unfold TransformRequest_from_node.
  destruct (MaltegoMessage_from_node TransformRequestCls o) as [inner|e']
    eqn:Henvelope.
  2: { intros [= <-].
       destruct (envelope_Raise _ _ _ Henvelope) as [? | [? | ?]]; auto. }
  rewrite bind_Return.
  destruct (find "Entities" inner) as [entity_nodes|].
  2: { intros [= <-]. right. right. left. by eexists. }
  destruct (for_each entity_body (getchildren entity_nodes)
              (MaltegoMessage_init : message)) as [i1|e'] eqn:Hentities.
  2: { intros [= <-].
       apply for_each_Raise in Hentities as (s' & c & _ & Hc).
       unfold entity_body in Hc.
       destruct (XMLObject.from_node c) as [x|e''] eqn:Hx; [done |].
       injection Hc as <-. right. right. right. by exists c. }
  rewrite bind_Return.
  destruct (match find "TransformFields" inner with
            | Some fields_node =>
              for_each field_body (getchildren fields_node) i1
            | None => Return i1
            end) as [i2|e'] eqn:Hfields.
  2: { intros [= <-]. right. right. left.
       destruct (find "TransformFields" inner) as [fields_node|]; [| done].
       apply for_each_Raise in Hfields as (s' & f & _ & Hf).
       destruct (field_body_cases s' f) as [[_ Hraise] | (n & _ & Hreturn)].
       - rewrite Hraise in Hf. injection Hf as <-. by eexists.
       - by rewrite Hreturn in Hf. }
  rewrite bind_Return.
  destruct (find "Limits" inner) as [limit|]; [| done].
  destruct (int (attrib_get limit "SoftLimit" (PyInt DEFAULT_SOFT_LIMIT)))
    as [soft|e'] eqn:Hsoft.
  2: { intros [= <-]. left. by apply (int_attrib_Raise _ _ _ _ Hsoft). }
  rewrite bind_Return.
  destruct (int (attrib_get limit "HardLimit" (PyInt DEFAULT_SOFT_LIMIT)))
    as [hard|e'] eqn:Hhard.
  2: { intros [= <-]. left. by apply (int_attrib_Raise _ _ _ _ Hhard). }
  done.
Qed.

(** X18: a response decode raises nothing but the [ValueError] of the
    envelope check, the [IndexError] of a root without children, a
    [MalformedMessageError], the [AttributeError] of a missing
    [UIMessages] element, or what a collaborator raised on a child of
    [Entities] or of [UIMessages]. *)
Theorem response_errors (o : pyobj) (e : exn) :
  response_from_node o = Raise e →
  e = ValueError "Is not an `etree.Element` instance."
  ∨ e = IndexError "list index out of range"
  ∨ (∃ msg, e = MalformedMessageError msg)
  ∨ e = none_getchildren
  ∨ (∃ c, XMLObject.from_node (A:=Entity) c = Raise e)
  ∨ (∃ c, XMLObject.from_node (A:=UIMessage) c = Raise e).
Proof.
  unfold TransformResponse_from_node.
  destruct (MaltegoMessage_from_node TransformResponseCls o) as [inner|e']
    eqn:Henvelope.
  2: { intros [= <-]. revert Henvelope.
       destruct o as [| z | s | root]; try (intros [= <-]; by left).
       unfold MaltegoMessage_from_node. simpl.
       destruct (getchildren root) as [|first rest]; simpl.
       - intros [= <-]. right. by left.
       - case_decide; [| done]. intros [= <-]. right. right. left.
         by eexists. }
  rewrite bind_Return.
  destruct (find "Entities" inner) as [entity_nodes|].
  2: { intros [= <-]. right. right. left. by eexists. }
  destruct (for_each
              (λ (entities : list Entity) entity,
                 e ← XMLObject.from_node entity; Return (entities ++ [e]))
              (getchildren entity_nodes) []) as [es|e'] eqn:Hentities.
  2: { intros [= <-].
       apply for_each_Raise in Hentities as (s' & c & _ & Hc).
       destruct (XMLObject.from_node c) as [x|e''] eqn:Hx; [done |].
       injection Hc as <-. do 4 right. left. by exists c. }
  rewrite bind_Return.
  destruct (find "UIMessages" inner) as [message_nodes|].
  2: { intros [= <-]. do 3 right. by left. }
  simpl found. simpl py_getchildren. rewrite bind_Return.
  destruct (for_each
              (λ (ui_messages : list UIMessage) message,
                 m ← XMLObject.from_node message; Return (ui_messages ++ [m]))
              (getchildren message_nodes) []) as [ms|e'] eqn:Hmessages.
  2: { intros [= <-].
       apply for_each_Raise in Hmessages as (s' & c & _ & Hc).
       destruct (XMLObject.from_node c) as [x|e''] eqn:Hx; [done |].
       injection Hc as <-. do 5 right. by exists c. }
  done.
Qed.

End Coverage.

(** ** Instances of the further properties *)

Ltac by_members H :=
  repeat (apply elem_of_cons in H; destruct H as [-> | H]);
  try (by apply elem_of_nil in H).

Lemma request_full_decodes :
  TransformRequest_from_node (PyElement request_full)
  = Return request_full_decoded.
Proof. vm_compute. reflexivity. Qed.

Lemma request_entities_in_order_witness :
  Forall2 (λ c e, XMLObject.from_node c = Return e)
          [entity_a; entity_b] (entities request_full_decoded)
  ∧ length (entities request_full_decoded) = 2%nat
  ∧ ui_messages request_full_decoded = [].
Proof.
  apply (request_entities_in_order (Entity:=entity) (UIMessage:=ui_message)
           request_full (request_message request_full_children)
           entities_a_b [] request_full_decoded).
  - reflexivity.
  - reflexivity.
  - vm_compute. reflexivity.
Defined.

Lemma request_fields_exact_witness :
  (∀ name, is_Some (fields request_full_decoded !! name)
           ↔ ∃ f, f ∈ [field_x_padded; field_y]
                  ∧ attrib f !! "Name" = Some name)
  ∧ (∀ name value,
       fields request_full_decoded !! name = Some value →
       ∃ f, f ∈ [field_x_padded; field_y]
            ∧ attrib f !! "Name" = Some name
            ∧ value = strip <$> text f).
Proof.
  exact (request_fields_exact (Entity:=entity) (UIMessage:=ui_message)
           request_full (request_message request_full_children) []
           request_full_decoded eq_refl request_full_decodes).
Defined.

Lemma request_without_limits_witness :
  soft_limit request_no_limits_decoded = 500
  ∧ hard_limit request_no_limits_decoded = 10000.
Proof.
  apply (request_without_limits (Entity:=entity) (UIMessage:=ui_message)
           request_no_limits (request_message [entities_a_b; fields_x_y]) []
           request_no_limits_decoded).
  - reflexivity.
  - intros c Hc. simpl in Hc. by_members Hc; simpl; discriminate.
  - vm_compute. reflexivity.
Defined.

Lemma request_limits_from_attributes_witness :
  (∀ s, attrib limits_10_20 !! "SoftLimit" = Some s →
        parse_int s = Some (soft_limit request_full_decoded))
  ∧ (attrib limits_10_20 !! "SoftLimit" = None →
     soft_limit request_full_decoded = 500)
  ∧ (∀ s, attrib limits_10_20 !! "HardLimit" = Some s →
          parse_int s = Some (hard_limit request_full_decoded)).
Proof.
  apply (request_limits_from_attributes (Entity:=entity)
           (UIMessage:=ui_message)
           request_full (request_message request_full_children)
           limits_10_20 [] request_full_decoded).
  - reflexivity.
  - reflexivity.
  - vm_compute. reflexivity.
Defined.

Lemma request_limit_not_a_number_witness :
  ∃ msg,
    TransformRequest_from_node (Entity:=entity) (UIMessage:=ui_message)
      (PyElement request_bad_limit)
    = Raise (ValueError msg).
Proof.
  apply (request_limit_not_a_number (Entity:=entity) (UIMessage:=ui_message)
           request_bad_limit
           (request_message [entities_a_b; fields_x_y; limits_soft_ten])
           entities_a_b limits_soft_ten [] "SoftLimit" "ten").
  - reflexivity.
  - reflexivity.
  - reflexivity.
  - intros c Hc. simpl in Hc. by_members Hc; by eexists.
  - intros fields_node f Hfind Hf. injection Hfind as <-. simpl in Hf.
    by_members Hf; by eexists.
  - reflexivity.
  - by left.
  - reflexivity.
  - reflexivity.
Defined.

Lemma request_well_formed_returns_witness :
  returns (TransformRequest_from_node (Entity:=entity) (UIMessage:=ui_message)
             (PyElement request_full)).
Proof.
  apply (request_well_formed_returns (Entity:=entity) (UIMessage:=ui_message)
           request_full (request_message request_full_children)
           entities_a_b []).
  - reflexivity.
  - reflexivity.
  - reflexivity.
  - intros c Hc. simpl in Hc. by_members Hc; by eexists.
  - intros fields_node f Hfind Hf. injection Hfind as <-. simpl in Hf.
    by_members Hf; by eexists.
  - intros limit key s Hfind Hkey Hs. injection Hfind as <-.
    destruct Hkey as [-> | ->]; vm_compute in Hs; injection Hs as <-;
      (split; [by eexists | simpl; lia]).
Defined.

Lemma request_entity_error_propagates_witness :
  TransformRequest_from_node (Entity:=entity) (UIMessage:=ui_message)
    (PyElement request_second_entity_bogus)
  = Raise (OtherError "MalformedEntityError" "Bogus").
Proof.
  apply (request_entity_error_propagates (Entity:=entity)
           (UIMessage:=ui_message)
           request_second_entity_bogus
           (request_message [entities_a_bogus; fields_x_y])
           entities_a_bogus (Element "Bogus" ∅ None [])
           [] [entity_a] []).
  - reflexivity.
  - reflexivity.
  - reflexivity.
  - reflexivity.
  - intros b Hb. by_members Hb; by eexists.
  - reflexivity.
Defined.

Lemma request_field_values_trimmed_witness :
  match list_ascii_of_string "a b" with
  | c :: _ => isspace c = false
  | [] => True
  end
  ∧ match rev (list_ascii_of_string "a b") with
    | c :: _ => isspace c = false
    | [] => True
    end
  ∧ ∃ fields_node f s pre post,
      find "TransformFields" (request_message request_full_children)
      = Some fields_node
      ∧ f ∈ getchildren fields_node
      ∧ attrib f !! "Name" = Some "x"
      ∧ text f = Some s
      ∧ list_ascii_of_string s = pre ++ list_ascii_of_string "a b" ++ post
      ∧ Forall (λ c, isspace c = true) pre
      ∧ Forall (λ c, isspace c = true) post.
Proof.
  apply (request_field_values_trimmed (Entity:=entity) (UIMessage:=ui_message)
           request_full (request_message request_full_children) []
           request_full_decoded "x" "a b").
  - reflexivity.
  - vm_compute. reflexivity.
  - vm_compute. reflexivity.
Defined.

Lemma response_decoded_contents_witness :
  ∃ entity_nodes message_nodes,
    find "Entities" (response_message response_full_children)
    = Some entity_nodes
    ∧ find "UIMessages" (response_message response_full_children)
      = Some message_nodes
    ∧ Forall2 (λ c e, XMLObject.from_node c = Return e)
              (getchildren entity_nodes) (entities response_full_decoded)
    ∧ Forall2 (λ c m, XMLObject.from_node c = Return m)
              (getchildren message_nodes) (ui_messages response_full_decoded)
    ∧ fields response_full_decoded = ∅
    ∧ soft_limit response_full_decoded = 500
    ∧ hard_limit response_full_decoded = 10000.
Proof.
  apply (response_decoded_contents (Entity:=entity) (UIMessage:=ui_message)
           response_full (response_message response_full_children) []
           response_full_decoded).
  - reflexivity.
  - vm_compute. reflexivity.
Defined.

Lemma response_well_formed_returns_witness :
  returns (TransformResponse_from_node (Entity:=entity)
             (UIMessage:=ui_message) (PyElement response_full)).
Proof.
  apply (response_well_formed_returns (Entity:=entity) (UIMessage:=ui_message)
           response_full (response_message response_full_children)
           entities_a_b ui_messages_m []).
  - reflexivity.
  - reflexivity.
  - reflexivity.
  - reflexivity.
  - intros c Hc. simpl in Hc. by_members Hc; by eexists.
  - intros c Hc. simpl in Hc. by_members Hc; by eexists.
Defined.

Lemma response_ui_message_error_propagates_witness :
  TransformResponse_from_node (Entity:=entity) (UIMessage:=ui_message)
    (PyElement response_bogus_ui_message)
  = Raise (OtherError "MalformedEntityError" "Bogus").
Proof.
  apply (response_ui_message_error_propagates (Entity:=entity)
           (UIMessage:=ui_message)
           response_bogus_ui_message
           (response_message [ui_messages_bogus; entities_a_b])
           entities_a_b ui_messages_bogus (Element "Bogus" ∅ None [])
           [] [] []).
  - reflexivity.
  - reflexivity.
  - reflexivity.
  - intros c Hc. simpl in Hc. by_members Hc; by eexists.
  - reflexivity.
  - reflexivity.
  - intros b Hb. by apply elem_of_nil in Hb.
  - reflexivity.
Defined.

Lemma response_round_trip_witness :
  ∃ r, TransformResponse_from_node
         (PyElement
            (to_xml_tree TransformResponse_to_node
               (TransformResponse_init [EntityValue "a"; EntityValue "b"]
                                       (Some [UIMessageText "m"]))))
       = Return r
       ∧ entities r = [EntityValue "a"; EntityValue "b"]
       ∧ ui_messages r = [UIMessageText "m"].
Proof.
  apply (response_round_trip [EntityValue "a"; EntityValue "b"]
                             [UIMessageText "m"]).
  - discriminate.
  - intros e He. by_members He; reflexivity.
  - intros m Hm. by_members Hm; reflexivity.
Defined.

Lemma request_errors_witness :
  (∃ msg, OtherError "MalformedEntityError" "Bogus" = ValueError msg)
  ∨ OtherError "MalformedEntityError" "Bogus"
    = IndexError "list index out of range"
  ∨ (∃ msg, OtherError "MalformedEntityError" "Bogus"
            = MalformedMessageError msg)
  ∨ (∃ c, XMLObject.from_node (A:=entity) c
          = Raise (OtherError "MalformedEntityError" "Bogus")).
Proof.
  apply (request_errors (Entity:=entity) (UIMessage:=ui_message)
           (PyElement request_second_entity_bogus)).
  reflexivity.
Defined.

Lemma response_errors_witness :
  none_getchildren = ValueError "Is not an `etree.Element` instance."
  ∨ none_getchildren = IndexError "list index out of range"
  ∨ (∃ msg, none_getchildren = MalformedMessageError msg)
  ∨ none_getchildren = none_getchildren
  ∨ (∃ c, XMLObject.from_node (A:=entity) c = Raise none_getchildren)
  ∨ (∃ c, XMLObject.from_node (A:=ui_message) c = Raise none_getchildren).
Proof.
  apply (response_errors (Entity:=entity) (UIMessage:=ui_message)
           (PyElement (response [entities_a_b]))).
  reflexivity.
Defined.
